(** * PrivateGPT bridge: the request-mode translation layer, the file
      registry view and the bulk delete, embedded from the bridge's Go source.

    The handlers of the bridge are embedded as Rocq functions.  JSON documents
    are trees ([JValue]); a Go struct is a record, a slice is a list (the
    code never observes the difference between a nil and an empty slice: it
    only takes [len], ranges, appends, or marshals under [omitempty]); a Go
    map is a [gmap]; the upstream PrivateGPT service is an explicit state
    threaded through the calls a handler makes, together with the log of the
    calls that were issued. *)

From Stdlib Require Import ZArith List String Ascii Bool Lia Permutation.
From Stdlib Require Import Floats.PrimFloat DecimalString.
From stdpp Require Import base option list gmap strings.

Local Open Scope Z_scope.
Local Open Scope string_scope.
Local Open Scope list_scope.

#[local] Set Warnings "-register-all".

(** ** JSON documents *)

(** Go's [float64]. *)
Definition float64 : Set := PrimFloat.float.

Inductive JValue : Type :=
| JNull
| JBool (b : bool)
| JInt (n : Z)
| JFloat (f : float64)
| JString (s : string)
| JArray (items : list JValue)
| JObject (fields : list (string * JValue)).

(** The value stored under key [k] of an object written field by field. *)
Fixpoint jfield (k : string) (fields : list (string * JValue)) : option JValue :=
  match fields with
  | [] => None
  | (k', v) :: rest => if String.eqb k k' then Some v else jfield k rest
  end.

Definition jlookup (k : string) (v : JValue) : option JValue :=
  match v with
  | JObject fields => jfield k fields
  | _ => None
  end.

Definition jhas (k : string) (v : JValue) : bool :=
  match jlookup k v with Some _ => true | None => false end.

(** ** encoding/json: what [omitempty] leaves out *)

(** A number is empty when it equals zero (for a float, [== 0]). *)
Definition emptyInt (n : Z) : bool := Z.eqb n 0.
Definition emptyFloat (f : float64) : bool := PrimFloat.eqb f PrimFloat.zero.
Definition emptySlice {A} (l : list A) : bool :=
  match l with [] => true | _ => false end.

(** A struct field: [Some] when the key is written, [None] when
    [omitempty] drops it. *)
Definition always (k : string) (v : JValue) : option (string * JValue) := Some (k, v).
Definition omitempty (k : string) (empty : bool) (v : JValue) : option (string * JValue) :=
  if empty then None else Some (k, v).

Definition jstruct (fs : list (option (string * JValue))) : JValue :=
  JObject (omap id fs).

(** ** The structs of the bridge *)

Module Message.
Record t := mk { Role : string; Content : string }.
Definition marshal (m : t) : JValue :=
  jstruct [ always "role" (JString (Role m));
            always "content" (JString (Content m)) ].
End Message.

Module ContextFilter.
Record t := mk { DocsIds : list string }.
Definition marshal (c : t) : JValue :=
  jstruct [ omitempty "docs_ids" (emptySlice (DocsIds c))
              (JArray (map JString (DocsIds c))) ].
End ContextFilter.

(** A [*ContextFilter] field tagged [omitempty]: a nil pointer is dropped,
    any other pointer is written. *)
Definition contextFilterField (p : option ContextFilter.t) : option (string * JValue) :=
  match p with
  | None => None
  | Some c => Some ("context_filter", ContextFilter.marshal c)
  end.

Module ChatRequest.
Record t := mk {
  Model : string;
  Messages : list Message.t;
  UseContext : bool;
  ContextFilter : option ContextFilter.t;
  IncludeSources : bool;
  Stream : bool;
  MaxTokens : Z;
  Temperature : float64
}.
(** [Messages] is written as an array: the handler starts it from
    [[]Message{}], so it is never the nil slice. *)
Definition marshal (c : t) : JValue :=
  jstruct [ always "model" (JString (Model c));
            always "messages" (JArray (map Message.marshal (Messages c)));
            always "use_context" (JBool (UseContext c));
            contextFilterField (ContextFilter c);
            always "include_sources" (JBool (IncludeSources c));
            always "stream" (JBool (Stream c));
            omitempty "max_tokens" (emptyInt (MaxTokens c)) (JInt (MaxTokens c));
            omitempty "temperature" (emptyFloat (Temperature c)) (JFloat (Temperature c)) ].
End ChatRequest.

Module CompletionRequest.
Record t := mk {
  Model : string;
  Prompt : string;
  UseContext : bool;
  ContextFilter : option ContextFilter.t;
  IncludeSources : bool;
  MaxTokens : Z;
  Temperature : float64
}.
Definition marshal (c : t) : JValue :=
  jstruct [ always "model" (JString (Model c));
            always "prompt" (JString (Prompt c));
            always "use_context" (JBool (UseContext c));
            contextFilterField (ContextFilter c);
            always "include_sources" (JBool (IncludeSources c));
            omitempty "max_tokens" (emptyInt (MaxTokens c)) (JInt (MaxTokens c));
            omitempty "temperature" (emptyFloat (Temperature c)) (JFloat (Temperature c)) ].
End CompletionRequest.

Module ChunksRequest.
Record t := mk {
  Text : string;
  ContextFilter : option ContextFilter.t;
  Limit : Z;
  PrevNextChunks : Z
}.
Definition marshal (c : t) : JValue :=
  jstruct [ always "text" (JString (Text c));
            contextFilterField (ContextFilter c);
            omitempty "limit" (emptyInt (Limit c)) (JInt (Limit c));
            omitempty "prev_next_chunks" (emptyInt (PrevNextChunks c))
              (JInt (PrevNextChunks c)) ].
End ChunksRequest.

Module BridgeConfig.
Record t := mk {
  Mode : string;
  UseContext : bool;
  SelectedDocs : list string;
  MaxTokens : Z;
  Temperature : float64
}.
End BridgeConfig.

(** The anonymous struct [reqData] that [chatHandler] decodes the body into. *)
Module ReqData.
Record t := mk {
  Message : string;
  Config : BridgeConfig.t;
  SystemPrompt : string;
  History : list Message.t
}.
End ReqData.

(** ** chatHandler: the switch on [reqData.Config.Mode]

    [buildPayload] is the switch that picks [endpoint] and [payload] from the
    decoded body; the handler then marshals the payload and posts it to
    [PRIVATEGPT_HOST + endpoint]. *)

(** [payload interface{}] holds one of three struct types. *)
Inductive Payload : Type :=
| PChunks (c : ChunksRequest.t)
| PChat (c : ChatRequest.t)
| PCompletion (c : CompletionRequest.t).

Definition marshalPayload (p : Payload) : JValue :=
  match p with
  | PChunks c => ChunksRequest.marshal c
  | PChat c => ChatRequest.marshal c
  | PCompletion c => CompletionRequest.marshal c
  end.

(** [messages := []Message{}], then the system turn when the prompt is not
    the empty string. *)
Definition systemTurn (systemPrompt : string) : list Message.t :=
  if String.eqb systemPrompt "" then []
  else [Message.mk "system" systemPrompt].

(** [reqData.History[len(reqData.History)-4:]] behind its guard
    [len(reqData.History) > 4]. *)
Definition basicHistory (history : list Message.t) : list Message.t :=
  if (4 <? Z.of_nat (length history))%Z
  then drop (length history - 4)%nat history
  else history.

Definition summarizePrefix : string :=
  "Please provide a comprehensive summary of the following content: ".

Definition buildPayload (reqData : ReqData.t) : string * Payload :=
  let cfg := ReqData.Config reqData in
  let mode := BridgeConfig.Mode cfg in
  if String.eqb mode "search" then
    let chunksReq :=
      ChunksRequest.mk (ReqData.Message reqData) None 10 1 in
    let chunksReq :=
      if (0 <? Z.of_nat (length (BridgeConfig.SelectedDocs cfg)))%Z
      then ChunksRequest.mk (ChunksRequest.Text chunksReq)
             (Some (ContextFilter.mk (BridgeConfig.SelectedDocs cfg)))
             (ChunksRequest.Limit chunksReq) (ChunksRequest.PrevNextChunks chunksReq)
      else chunksReq in
    ("/v1/chunks", PChunks chunksReq)
  else if String.eqb mode "basic" then
    let messages := systemTurn (ReqData.SystemPrompt reqData) in
    let messages := messages ++ basicHistory (ReqData.History reqData) in
    let messages := messages ++ [Message.mk "user" (ReqData.Message reqData)] in
    let chatReq :=
      ChatRequest.mk "private-gpt" messages false None false false
        (BridgeConfig.MaxTokens cfg) (BridgeConfig.Temperature cfg) in
    ("/v1/chat/completions", PChat chatReq)
  else if String.eqb mode "summarize" then
    let prompt := String.append summarizePrefix (ReqData.Message reqData) in
    let completionReq :=
      CompletionRequest.mk "private-gpt" prompt true None true
        (BridgeConfig.MaxTokens cfg) (BridgeConfig.Temperature cfg) in
    let completionReq :=
      if (0 <? Z.of_nat (length (BridgeConfig.SelectedDocs cfg)))%Z
      then CompletionRequest.mk (CompletionRequest.Model completionReq)
             (CompletionRequest.Prompt completionReq)
             (CompletionRequest.UseContext completionReq)
             (Some (ContextFilter.mk (BridgeConfig.SelectedDocs cfg)))
             (CompletionRequest.IncludeSources completionReq)
             (CompletionRequest.MaxTokens completionReq)
             (CompletionRequest.Temperature completionReq)
      else completionReq in
    ("/v1/completions", PCompletion completionReq)
  else
    let messages := systemTurn (ReqData.SystemPrompt reqData) in
    let messages := messages ++ ReqData.History reqData in
    let messages := messages ++ [Message.mk "user" (ReqData.Message reqData)] in
    let chatReq :=
      ChatRequest.mk "private-gpt" messages (BridgeConfig.UseContext cfg) None true false
        (BridgeConfig.MaxTokens cfg) (BridgeConfig.Temperature cfg) in
    let chatReq :=
      if BridgeConfig.UseContext cfg
         && (0 <? Z.of_nat (length (BridgeConfig.SelectedDocs cfg)))%Z
      then ChatRequest.mk (ChatRequest.Model chatReq) (ChatRequest.Messages chatReq)
             (ChatRequest.UseContext chatReq)
             (Some (ContextFilter.mk (BridgeConfig.SelectedDocs cfg)))
             (ChatRequest.IncludeSources chatReq) (ChatRequest.Stream chatReq)
             (ChatRequest.MaxTokens chatReq) (ChatRequest.Temperature chatReq)
      else chatReq in
    ("/v1/chat/completions", PChat chatReq).

(** The JSON document [json.Marshal(payload)] that is posted upstream. *)
Definition chatBody (reqData : ReqData.t) : JValue :=
  marshalPayload (snd (buildPayload reqData)).

(** Shorthands for the fields of a decoded chat request. *)
Definition modeOf (r : ReqData.t) : string := BridgeConfig.Mode (ReqData.Config r).
Definition docsOf (r : ReqData.t) : list string := BridgeConfig.SelectedDocs (ReqData.Config r).
Definition userTurn (r : ReqData.t) : Message.t := Message.mk "user" (ReqData.Message r).

(** ** Go values shared by the file handlers *)

Definition PRIVATEGPT_HOST : string := "http://localhost:8001".

(** The list endpoint, [PRIVATEGPT_HOST + "/v1/ingest/list"]. *)
Definition listURL : string := String.append PRIVATEGPT_HOST "/v1/ingest/list".

(** [MAX_FILE_SIZE = 50 << 20]. *)
Definition MAX_FILE_SIZE : Z := Z.shiftl 50 20.

(** Go compares strings byte by byte; [a > b] on strings. *)
Definition stringGt (a b : string) : bool := String.ltb b a.

(** Go's [int] (64 bits) and its [++]. *)
Definition intMax : Z := 2 ^ 63 - 1.
Definition wrapInt (z : Z) : Z := (z + 2 ^ 63) mod 2 ^ 64 - 2 ^ 63.
Definition incr (z : Z) : Z := wrapInt (z + 1).

(** [len] of a slice. *)
Definition len {A} (l : list A) : Z := Z.of_nat (length l).

(** [%d] of [fmt.Sprintf]. *)
Definition fmtInt (z : Z) : string := NilZero.string_of_int (Z.to_int z).

Module FileInfo.
Record t := mk {
  DocID : string;
  (** [map[string]interface{}]; [None] is the nil map. *)
  DocMetadata : option (gmap string JValue)
}.
End FileInfo.

Module ListFilesResponse.
Record t := mk {
  Object : string;
  Model : string;
  Data : list FileInfo.t
}.
End ListFilesResponse.

(** The display name computed at every use of a file record:
    [fileName := "Unknown"], replaced when the metadata map is not nil and
    its ["file_name"] entry asserts to a string. *)
Definition fileNameOf (file : FileInfo.t) : string :=
  match FileInfo.DocMetadata file with
  | Some md =>
      match md !! "file_name" with
      | Some (JString name) => name
      | _ => "Unknown"
      end
  | None => "Unknown"
  end.

(** ** listFilesHandler: the deduplication loop *)

(** One iteration of [for _, file := range listResp.Data]. *)
Definition dedupStep (fileMap : gmap string FileInfo.t) (file : FileInfo.t)
  : gmap string FileInfo.t :=
  let fileName := fileNameOf file in
  match fileMap !! fileName with
  | Some existing =>
      if stringGt (FileInfo.DocID file) (FileInfo.DocID existing)
      then <[fileName := file]> fileMap
      else fileMap
  | None => <[fileName := file]> fileMap
  end.

(** [fileMap] after the loop, from [make(map[string]FileInfo)]. *)
Definition dedupFiles (data : list FileInfo.t) : gmap string FileInfo.t :=
  foldl dedupStep ∅ data.

(** What the map holds under key [k] once the records [data] have been
    read: nothing when no record has this display name, else one of these
    records, with a [doc_id] no other of them exceeds. *)
Definition slot_ok (data : list FileInfo.t) (k : string) (slot : option FileInfo.t) : Prop :=
  match slot with
  | None => forall f, f ∈ data -> fileNameOf f <> k
  | Some kept =>
      kept ∈ data /\ fileNameOf kept = k
      /\ forall f, f ∈ data -> fileNameOf f = k ->
           String.leb (FileInfo.DocID f) (FileInfo.DocID kept) = true
  end.

(** ** The upstream service and what a handler writes back *)

Record Request := mkRequest { ReqMethod : string; ReqURL : string }.
Record Response := mkResponse { StatusCode : Z; RespBody : string }.

(** What a handler writes to its [http.ResponseWriter]: the status, and a
    body that is a text line ([http.Error]), an encoded
    [map[string]interface{}], or bytes copied from upstream. *)
Inductive ReplyBody : Type :=
| BText (line : string)
| BMap (m : gmap string JValue)
| BCopy (raw : string).

Record Reply := mkReply { Code : Z; Body : ReplyBody }.

Section Upstream.

(** The state of the world outside the bridge, and the library calls that
    reach it.  A result [inl e] is a Go error with [e = err.Error()]. *)
Variable World : Type.
Variable httpGet : string -> World -> (string + Response) * World.
Variable decodeList : string -> string + ListFilesResponse.t.
Variable newRequest : string -> string -> string + Request.
Variable clientDo : Request -> World -> (string + Response) * World.

(** A handler threads the world and the log of the requests it sent. *)
Definition Net (A : Type) : Type := World * list Request -> A * (World * list Request).

Definition ret {A} (a : A) : Net A := fun s => (a, s).

Definition bind {A B} (m : Net A) (k : A -> Net B) : Net B :=
  fun s => let '(a, s') := m s in k a s'.

Notation "x <- m ;; k" := (bind m (fun x => k))
  (at level 100, m at next level, right associativity).

Definition Get (url : string) : Net (string + Response) :=
  fun '(w, sent) =>
    let '(r, w') := httpGet url w in (r, (w', sent ++ [mkRequest "GET" url])).

Definition Do (req : Request) : Net (string + Response) :=
  fun '(w, sent) =>
    let '(r, w') := clientDo req w in (r, (w', sent ++ [req])).

(** ** deleteAllFilesHandler *)

Record Counters := mkCounters {
  deletedCount : Z;
  failedCount : Z;
  failedFiles : list string
}.

Definition failOne (file : FileInfo.t) (c : Counters) : Counters :=
  mkCounters (deletedCount c) (incr (failedCount c))
    (failedFiles c ++ [fileNameOf file]).

(** The body of [for _, file := range listResp.Data]. *)
Definition deleteStep (file : FileInfo.t) (c : Counters) : Net Counters :=
  match newRequest "DELETE"
          (String.append PRIVATEGPT_HOST
             (String.append "/v1/ingest/" (FileInfo.DocID file))) with
  | inl _ =>
      (* failedCount++; failedFiles = append(failedFiles, fileName); continue *)
      ret (failOne file c)
  | inr deleteReq =>
      r <- Do deleteReq ;;
      match r with
      | inl _ =>
          (* failedCount++; failedFiles = append(failedFiles, fileName); continue *)
          ret (failOne file c)
      | inr deleteResp =>
          if (StatusCode deleteResp =? 200)%Z
          then ret (mkCounters (incr (deletedCount c)) (failedCount c) (failedFiles c))
          else ret (failOne file c)
      end
  end.

Fixpoint deleteLoop (data : list FileInfo.t) (c : Counters) : Net Counters :=
  match data with
  | [] => ret c
  | file :: rest => c' <- deleteStep file c ;; deleteLoop rest c'
  end.

(** [result], with ["failed_files"] set only when some delete failed. *)
Definition bulkResult (c : Counters) (total : Z) : gmap string JValue :=
  let result : gmap string JValue :=
    <["success" := JBool true]>
    (<["message" := JString
         (String.append "Bulk delete completed: "
            (String.append (fmtInt (deletedCount c))
               (String.append " deleted, "
                  (String.append (fmtInt (failedCount c)) " failed"))))]>
    (<["deleted_count" := JInt (deletedCount c)]>
    (<["failed_count" := JInt (failedCount c)]>
    (<["total_files" := JInt total]> ∅)))) in
  if (0 <? len (failedFiles c))%Z
  then <["failed_files" := JArray (map JString (failedFiles c))]> result
  else result.

Definition noFilesResult : gmap string JValue :=
  <["success" := JBool true]>
  (<["message" := JString "No files to delete"]>
  (<["deleted_count" := JInt 0]>
  (<["failed_count" := JInt 0]> ∅))).

Definition deleteAllFilesHandler (method : string) : Net Reply :=
  if negb (String.eqb method "DELETE")
  then ret (mkReply 405 (BText "Method not allowed"))
  else
    r <- Get (String.append PRIVATEGPT_HOST "/v1/ingest/list") ;;
    match r with
    | inl err =>
        ret (mkReply 502 (BMap
          (<["success" := JBool false]>
          (<["error" := JString "Failed to get file list from PrivateGPT"]>
          (<["details" := JString err]> ∅)))))
    | inr resp =>
        if negb (StatusCode resp =? 200)%Z
        then
          ret (mkReply (StatusCode resp) (BMap
            (<["success" := JBool false]>
            (<["error" := JString
                 (String.append "PrivateGPT error getting file list (status "
                    (String.append (fmtInt (StatusCode resp)) ")"))]> ∅))))
        else
          match decodeList (RespBody resp) with
          | inl err =>
              ret (mkReply 500 (BMap
                (<["success" := JBool false]>
                (<["error" := JString "Failed to parse file list"]>
                (<["details" := JString err]> ∅)))))
          | inr listResp =>
              let data := ListFilesResponse.Data listResp in
              if (len data =? 0)%Z
              then ret (mkReply 200 (BMap noFilesResult))
              else
                c <- deleteLoop data (mkCounters 0 0 []) ;;
                ret (mkReply 200 (BMap (bulkResult c (len data))))
          end
    end.

(** *** The outcome of each delete, read off the upstream alone *)

Inductive Outcome : Type :=
| Deleted
| RequestError
| NetworkError
| BadStatus (code : Z).

Definition isFailure (o : Outcome) : bool :=
  match o with Deleted => false | _ => true end.

(** One delete call for [file]: the request cannot be built, or the call
    fails, or the upstream answers with a status. *)
Definition attempt (file : FileInfo.t) : Net Outcome :=
  match newRequest "DELETE"
          (String.append PRIVATEGPT_HOST
             (String.append "/v1/ingest/" (FileInfo.DocID file))) with
  | inl _ => ret RequestError
  | inr deleteReq =>
      r <- Do deleteReq ;;
      match r with
      | inl _ => ret NetworkError
      | inr deleteResp =>
          if (StatusCode deleteResp =? 200)%Z then ret Deleted
          else ret (BadStatus (StatusCode deleteResp))
      end
  end.

(** One attempt per record, in list order. *)
Fixpoint attempts (data : list FileInfo.t) : Net (list Outcome) :=
  match data with
  | [] => ret []
  | file :: rest => o <- attempt file ;; os <- attempts rest ;; ret (o :: os)
  end.

Definition deletedOf (os : list Outcome) : Z :=
  Z.of_nat (length (List.filter (fun o => negb (isFailure o)) os)).

Definition failedOf (os : list Outcome) : Z :=
  Z.of_nat (length (List.filter isFailure os)).

(** The display names of the records whose delete failed, in list order. *)
Fixpoint failedNames (data : list FileInfo.t) (os : list Outcome) : list string :=
  match data, os with
  | file :: rest, o :: os' =>
      if isFailure o then fileNameOf file :: failedNames rest os'
      else failedNames rest os'
  | _, _ => []
  end.

(** ** uploadHandler *)

(** [filepath.Ext]: scanning from the end and stopping at a path separator
    (the slash of Unix), the suffix that starts at the last dot of the last
    element; empty when there is none. *)
Fixpoint extScan (rpath : list ascii) (suffix : list ascii) : list ascii :=
  match rpath with
  | [] => []
  | c :: rest =>
      if Ascii.eqb c "/" then []
      else if Ascii.eqb c "." then c :: suffix
      else extScan rest (c :: suffix)
  end.

Definition filepathExt (path : string) : string :=
  string_of_list_ascii (extScan (rev (list_ascii_of_string path)) []).

Definition allowedExts : gmap string bool :=
  list_to_map
    [ (".pdf", true); (".docx", true); (".doc", true); (".txt", true);
      (".md", true); (".html", true); (".csv", true); (".json", true);
      (".pptx", true); (".ppt", true); (".epub", true); (".ipynb", true) ].

(** Indexing a [map[string]bool]: a missing key reads as [false]. *)
Definition allowed (ext : string) : bool := default false (allowedExts !! ext).

Record FileHeader := mkFileHeader { Filename : string; Size : Z }.

(** [r.MultipartForm.File] after a successful parse. *)
Record Form := mkForm { File : gmap string (list FileHeader) }.

(** The incoming request, the multipart machinery and [strings.ToLower]
    belong to Go's library. *)
Variable Incoming : Type.
Variable Method : Incoming -> string.
Variable ParseMultipartForm : Incoming -> Z -> string + Form.
Variable FileHandle : Type.
Variable openFile : FileHeader -> string + FileHandle.
Variable ToLower : string -> string.
Variable createFormFile : string -> string -> option string.
Variable ioCopy : FileHandle -> option string.

(** [r.FormFile(key)] once the form is parsed: the first file under the
    key, opened. *)
Definition FormFile (form : Form) (key : string) : string + (FileHandle * FileHeader) :=
  match File form !! key with
  | Some (fh :: _) =>
      match openFile fh with
      | inl e => inl e
      | inr f => inr (f, fh)
      end
  | _ => inl "http: no such file"
  end.

Definition uploadHandler (r : Incoming) : Net Reply :=
  if negb (String.eqb (Method r) "POST")
  then ret (mkReply 405 (BText "Method not allowed"))
  else
    match ParseMultipartForm r MAX_FILE_SIZE with
    | inl _ => ret (mkReply 400 (BText "File too large or invalid"))
    | inr form =>
        match FormFile form "file" with
        | inl _ => ret (mkReply 400 (BText "No file provided"))
        | inr (file, header) =>
            let ext := ToLower (filepathExt (Filename header)) in
            if negb (allowed ext)
            then ret (mkReply 400 (BText "File type not supported"))
            else
              match createFormFile "file" (Filename header) with
              | Some _ => ret (mkReply 500 (BText "Internal server error"))
              | None =>
                  match ioCopy file with
                  | Some _ => ret (mkReply 500 (BText "Internal server error"))
                  | None =>
                      match newRequest "POST"
                              (String.append PRIVATEGPT_HOST "/v1/ingest/file") with
                      | inl _ => ret (mkReply 500 (BText "Internal server error"))
                      | inr req =>
                          resp <- Do req ;;
                          match resp with
                          | inl _ => ret (mkReply 502 (BText "PrivateGPT API error"))
                          | inr resp =>
                              ret (mkReply (StatusCode resp) (BCopy (RespBody resp)))
                          end
                      end
                  end
              end
        end
    end.

End Upstream.

Arguments ret {World A} _ _.
Arguments bind {World A B} _ _ _.

(** ** Go's library, where a concrete request is run *)

(** [strings.ToLower] on a string of ASCII bytes. *)
Definition asciiLower (c : ascii) : ascii :=
  let n := N_of_ascii c in
  if ((65 <=? n) && (n <=? 90))%N then ascii_of_N (n + 32) else c.

Fixpoint asciiToLower (s : string) : string :=
  match s with
  | EmptyString => EmptyString
  | String c rest => String (asciiLower c) (asciiToLower rest)
  end.

(** A multipart/form-data request: its parts in order, each a file part
    (field, file name, size in bytes) or a plain value (field, size);
    [None] when the body does not parse as multipart. *)
Inductive Part : Type :=
| FilePart (field filename : string) (size : Z)
| ValuePart (field : string) (size : Z).

Record MultipartRequest := mkMultipartRequest {
  MethodOf : string;
  Parts : option (list Part)
}.

Definition valueBytes (parts : list Part) : Z :=
  foldr (fun p acc => match p with ValuePart _ n => n + acc | _ => acc end)%Z 0%Z parts.

Definition addFile (p : Part) (files : gmap string (list FileHeader))
  : gmap string (list FileHeader) :=
  match p with
  | FilePart field filename size =>
      <[field := mkFileHeader filename size :: default [] (files !! field)]> files
  | ValuePart _ _ => files
  end.

(** [Request.ParseMultipartForm(maxMemory)] as net/http and mime/multipart
    document it: the whole body is parsed; up to [maxMemory] bytes of the
    file parts are kept in memory and the remainder is stored on disk in
    temporary files; the call fails with "multipart: message too large"
    when the non-file parts do not fit in [maxMemory] plus 10 MB.  The size
    of a file part is never a reason to fail.  (The library's bounds on the
    number of parts and on the size of their headers are left out; they do
    not bear on a body of a few parts.) *)
Definition goParseMultipartForm (r : MultipartRequest) (maxMemory : Z) : string + Form :=
  match Parts r with
  | None => inl "request Content-Type isn't multipart/form-data"
  | Some parts =>
      if (maxMemory + Z.shiftl 10 20 <? valueBytes parts)%Z
      then inl "multipart: message too large"
      else inr (mkForm (foldr addFile ∅ parts))
  end.

(** ** Sample requests and upstream behaviours *)

Definition basicWithDocs : ReqData.t :=
  ReqData.mk "hello"
    (BridgeConfig.mk "basic" true ["doc-1"; "doc-2"] 256 PrimFloat.one)
    "be brief" [Message.mk "user" "hi"; Message.mk "assistant" "hello there"].

Definition searchExample : ReqData.t :=
  ReqData.mk "where is the invoice"
    (BridgeConfig.mk "search" true [] 0 PrimFloat.zero) "" [].

Definition turn (n : string) : Message.t := Message.mk "user" n.

Definition ragSixTurns : ReqData.t :=
  ReqData.mk "and then?"
    (BridgeConfig.mk "rag" true ["doc-9"] 0 PrimFloat.zero)
    "be brief" [turn "1"; turn "2"; turn "3"; turn "4"; turn "5"; turn "6"].

Definition basicSixTurns : ReqData.t :=
  ReqData.mk "and then?"
    (BridgeConfig.mk "basic" false [] 0 PrimFloat.zero)
    "" [turn "1"; turn "2"; turn "3"; turn "4"; turn "5"; turn "6"].

Definition searchPlain : ReqData.t :=
  ReqData.mk "invoice" (BridgeConfig.mk "search" false ["doc-1"] 0 PrimFloat.zero) "" [].

Definition searchWithHistory : ReqData.t :=
  ReqData.mk "invoice" (BridgeConfig.mk "search" true ["doc-1"] 512 PrimFloat.one)
    "answer in French" [turn "1"; turn "2"].

Definition named (name : string) : option (gmap string JValue) :=
  Some {[ "file_name" := JString name ]}.

Definition reportA : FileInfo.t := FileInfo.mk "a" (named "report.pdf").
Definition reportB : FileInfo.t := FileInfo.mk "b" (named "report.pdf").
Definition anonymous1 : FileInfo.t := FileInfo.mk "x1" None.
Definition anonymous2 : FileInfo.t := FileInfo.mk "x2" (Some ∅).

(** A scripted upstream.  The world counts the calls served; the list
    endpoint answers 200 with [body]; every request can be built; the delete
    of "id-2" is answered 500, that of "id-3" fails on the network, every
    other delete is answered 200. *)
Definition fiveFiles : list FileInfo.t :=
  [ FileInfo.mk "id-1" (named "a.pdf"); FileInfo.mk "id-2" (named "b.pdf");
    FileInfo.mk "id-3" None; FileInfo.mk "id-4" (named "d.pdf");
    FileInfo.mk "id-5" (named "e.pdf") ].

Definition scriptGet (body : string) (url : string) (w : nat) : (string + Response) * nat :=
  (inr (mkResponse 200 body), S w).

Definition scriptDecode (body : string) : string + ListFilesResponse.t :=
  if String.eqb body "five" then inr (ListFilesResponse.mk "list" "private-gpt" fiveFiles)
  else if String.eqb body "none" then inr (ListFilesResponse.mk "list" "private-gpt" [])
  else inl "unexpected end of JSON input".

Definition scriptNewRequest (method url : string) : string + Request :=
  inr (mkRequest method url).

Definition scriptDo (req : Request) (w : nat) : (string + Response) * nat :=
  if String.eqb (ReqURL req) "http://localhost:8001/v1/ingest/id-2"
  then (inr (mkResponse 500 "boom"), S w)
  else if String.eqb (ReqURL req) "http://localhost:8001/v1/ingest/id-3"
  then (inl "connection reset by peer", S w)
  else (inr (mkResponse 200 "{}"), S w).

(** Uploads run against the library as documented: the form parser above,
    files that open and copy without error, ASCII file names. *)
Definition runUpload (r : MultipartRequest) : Net nat Reply :=
  uploadHandler nat scriptNewRequest scriptDo
    MultipartRequest MethodOf goParseMultipartForm
    FileHeader (fun fh => inr fh) asciiToLower
    (fun _ _ => None) (fun _ => None) r.

(** A 60 MB PDF in the form field "file". *)
Definition bigUpload : MultipartRequest :=
  mkMultipartRequest "POST" (Some [FilePart "file" "big.pdf" (60 * 2 ^ 20)]).

Definition malwareUpload : MultipartRequest :=
  mkMultipartRequest "POST" (Some [FilePart "file" "malware.exe" 4096]).

Definition upperCaseUpload : MultipartRequest :=
  mkMultipartRequest "POST" (Some [FilePart "file" "Notes.TXT" 4096]).

(** ** The other handlers of the bridge *)

(** [strings.TrimPrefix]: [s] without [prefix] when it starts with it,
    [s] itself otherwise. *)
Fixpoint cutPrefix (s prefix : string) : option string :=
  match prefix, s with
  | EmptyString, _ => Some s
  | String p prefix', String c s' =>
      if Ascii.eqb c p then cutPrefix s' prefix' else None
  | String _ _, EmptyString => None
  end.

Definition TrimPrefix (s prefix : string) : string :=
  match cutPrefix s prefix with
  | Some rest => rest
  | None => s
  end.

(** [json.Marshal(payload)]: the encoder refuses a float that is NaN or
    infinite.  Only [temperature] is a float, and [omitempty] keeps such a
    value since it is not zero. *)
Definition unsupportedFloat (f : float64) : bool :=
  PrimFloat.is_nan f || PrimFloat.is_infinity f.

Definition jsonMarshal (p : Payload) : string + JValue :=
  let bad :=
    match p with
    | PChunks _ => false
    | PChat c => unsupportedFloat (ChatRequest.Temperature c)
    | PCompletion c => unsupportedFloat (CompletionRequest.Temperature c)
    end in
  if bad then inl "json: unsupported value" else inr (marshalPayload p).

(** The condition of the scan in [processingStatusHandler]: the metadata
    map is not nil, its ["file_name"] asserts to a string, and the string is
    the name asked for. *)
Definition nameMatches (filename : string) (file : FileInfo.t) : bool :=
  match FileInfo.DocMetadata file with
  | Some md =>
      match md !! "file_name" with
      | Some (JString name) => String.eqb name filename
      | _ => false
      end
  | None => false
  end.

(** [fileExists] after the loop, which stops at the first match. *)
Definition fileExists (filename : string) (data : list FileInfo.t) : bool :=
  existsb (nameMatches filename) data.

(** What [listFilesHandler] writes: a text line, bytes copied from
    upstream, or the encoded [ListFilesResponse]. *)
Inductive ListBody : Type :=
| LText (line : string)
| LCopy (raw : string)
| LFiles (resp : ListFilesResponse.t).

Record ListReply := mkListReply { ListCode : Z; ListContent : ListBody }.

Section Handlers.

Variable World : Type.
Variable httpGet : string -> World -> (string + Response) * World.
Variable decodeList : string -> string + ListFilesResponse.t.
Variable newRequest : string -> string -> string + Request.
Variable clientDo : Request -> World -> (string + Response) * World.

(** [client.Do] of a request that carries a JSON body. *)
Variable clientPost : Request -> JValue -> World -> (string + Response) * World.

(** The order in which [for _, file := range fileMap] visits the map; Go
    leaves it unspecified. *)
Variable rangeOrder : gmap string FileInfo.t -> list FileInfo.t.

Notation "x <- m ;; k" := (bind m (fun x => k))
  (at level 100, m at next level, right associativity).

(** *** listFilesHandler *)

Definition listFilesHandler (method : string) : Net World ListReply :=
  if negb (String.eqb method "GET")
  then ret (mkListReply 405 (LText "Method not allowed"))
  else
    r <- Get World httpGet listURL ;;
    match r with
    | inl _ => ret (mkListReply 502 (LText "PrivateGPT API error"))
    | inr resp =>
        if negb (StatusCode resp =? 200)%Z
        then ret (mkListReply (StatusCode resp) (LCopy (RespBody resp)))
        else
          match decodeList (RespBody resp) with
          | inl _ => ret (mkListReply 500 (LText "Error parsing response"))
          | inr listResp =>
              let fileMap := dedupFiles (ListFilesResponse.Data listResp) in
              let deduplicatedFiles := rangeOrder fileMap in
              ret (mkListReply 200 (LFiles
                (ListFilesResponse.mk (ListFilesResponse.Object listResp)
                   (ListFilesResponse.Model listResp) deduplicatedFiles)))
          end
    end.

(** *** deleteFileHandler *)

(** [urlPath] is [r.URL.Path]. *)
Definition deleteFileHandler (method urlPath : string) : Net World Reply :=
  if negb (String.eqb method "DELETE")
  then ret (mkReply 405 (BText "Method not allowed"))
  else
    let path := TrimPrefix urlPath "/api/files/" in
    if String.eqb path ""
    then ret (mkReply 400 (BText "Document ID required"))
    else
      match newRequest "DELETE"
              (String.append PRIVATEGPT_HOST (String.append "/v1/ingest/" path)) with
      | inl _ => ret (mkReply 500 (BText "Internal server error"))
      | inr req =>
          r <- Do World clientDo req ;;
          match r with
          | inl _ => ret (mkReply 502 (BText "PrivateGPT API error"))
          | inr resp =>
              if (StatusCode resp =? 200)%Z
              then ret (mkReply (StatusCode resp)
                     (BMap {[ "message" := JString "File deleted successfully" ]}))
              else ret (mkReply (StatusCode resp) (BCopy (RespBody resp)))
          end
      end.

(** *** processingStatusHandler *)

(** The maps of the error replies and of the 200 reply. *)
Definition statusError (msg filename : string) : gmap string JValue :=
  <["error" := JString msg]>
  (<["filename" := JString filename]>
  (<["processing" := JBool false]> ∅)).

Definition statusReport (filename : string) (exists_ : bool) : gmap string JValue :=
  <["filename" := JString filename]>
  (<["exists" := JBool exists_]>
  (<["processing" := JBool (negb exists_)]>
  (<["status" := JObject
       [ ("completed", JBool exists_);
         ("message", JString (if exists_ then "File processing completed"
                              else "File is still being processed")) ]]> ∅))).

(** [filename] is [r.URL.Query().Get("filename")], empty when the
    parameter is absent. *)
Definition processingStatusHandler (method filename : string) : Net World Reply :=
  if negb (String.eqb method "GET")
  then ret (mkReply 405 (BText "Method not allowed"))
  else if String.eqb filename ""
  then ret (mkReply 400 (BMap {[ "error" := JString "filename parameter is required" ]}))
  else
    r <- Get World httpGet listURL ;;
    match r with
    | inl _ =>
        ret (mkReply 502 (BMap (statusError "Failed to check PrivateGPT status" filename)))
    | inr resp =>
        if negb (StatusCode resp =? 200)%Z
        then ret (mkReply 502 (BMap (statusError "PrivateGPT API error" filename)))
        else
          match decodeList (RespBody resp) with
          | inl _ =>
              ret (mkReply 500 (BMap (statusError "Failed to parse response" filename)))
          | inr listResp =>
              ret (mkReply 200 (BMap
                (statusReport filename
                   (fileExists filename (ListFilesResponse.Data listResp)))))
          end
    end.

(** *** chatHandler *)

(** [decoded] is the outcome of decoding the body into [reqData].  The
    handler returns its reply, the world, and the request it posted with its
    JSON body, if it posted one. *)
Definition chatHandler (method : string) (decoded : string + ReqData.t) (w : World)
  : Reply * World * list (Request * JValue) :=
  if negb (String.eqb method "POST")
  then (mkReply 405 (BText "Method not allowed"), w, [])
  else
    match decoded with
    | inl _ => (mkReply 400 (BText "Invalid request"), w, [])
    | inr reqData =>
        let '(endpoint, payload) := buildPayload reqData in
        match jsonMarshal payload with
        | inl _ => (mkReply 500 (BText "Internal server error"), w, [])
        | inr jsonData =>
            match newRequest "POST" (String.append PRIVATEGPT_HOST endpoint) with
            | inl _ => (mkReply 500 (BText "Internal server error"), w, [])
            | inr req =>
                let '(r, w') := clientPost req jsonData w in
                match r with
                | inl _ =>
                    (mkReply 502 (BText "PrivateGPT API error"), w', [(req, jsonData)])
                | inr resp =>
                    (mkReply (StatusCode resp) (BCopy (RespBody resp)), w',
                     [(req, jsonData)])
                end
            end
        end
    end.

End Handlers.

(** ** More sample requests *)

Definition summarizePlain : ReqData.t :=
  ReqData.mk "the quarterly report"
    (BridgeConfig.mk "summarize" false ["doc-1"] 300 PrimFloat.one) "" [].

Definition summarizeWithHistory : ReqData.t :=
  ReqData.mk "the quarterly report"
    (BridgeConfig.mk "summarize" true ["doc-1"] 300 PrimFloat.one)
    "answer in French" [turn "1"; turn "2"].

(** The scripted upstream answers a posted document with 200. *)
Definition scriptPost (req : Request) (body : JValue) (w : nat) : (string + Response) * nat :=
  (inr (mkResponse 200 "answer"), S w).

(** The address of the delete call for a record, and the delete requests
    that can be built for a list of records, in list order. *)
Definition deleteURL (docID : string) : string :=
  String.append PRIVATEGPT_HOST (String.append "/v1/ingest/" docID).


(** A visiting order for the scripted runs, and an upstream that cannot be
    reached. *)
Definition scriptOrder (m : gmap string FileInfo.t) : list FileInfo.t :=
  (map_to_list m).*2.

Definition scriptGetDown (url : string) (w : nat) : (string + Response) * nat :=
  (inl "connection refused", w).

Definition readmeUpload : MultipartRequest :=
  mkMultipartRequest "POST" (Some [FilePart "file" "README" 512]).

Definition doubleExtensionUpload : MultipartRequest :=
  mkMultipartRequest "POST" (Some [FilePart "file" "invoice.pdf.exe" 512]).

(** ** The mode translator *)

Lemma nonempty_len {A} (l : list A) :
  (0 <? Z.of_nat (length l))%Z = negb (emptySlice l).
Proof. destruct l; [reflexivity|]. cbn [length emptySlice negb]. apply Z.ltb_lt. lia. Qed.

Lemma emptySlice_nil {A} (l : list A) : emptySlice l = true <-> l = [].
Proof. destruct l; cbn; split; congruence. Qed.

Lemma systemTurn_empty : systemTurn "" = [].
Proof. reflexivity. Qed.

Lemma systemTurn_nonempty sp : sp <> "" -> systemTurn sp = [Message.mk "system" sp].
Proof.
  intros Hsp. unfold systemTurn.
  destruct (String.eqb sp "") eqn:E; [|reflexivity].
  apply String.eqb_eq in E. contradiction.
Qed.

(** In basic mode the switch builds a chat request with no context. *)
Lemma buildPayload_basic r :
  modeOf r = "basic" ->
  buildPayload r =
    ("/v1/chat/completions",
     PChat (ChatRequest.mk "private-gpt"
              (systemTurn (ReqData.SystemPrompt r)
                 ++ basicHistory (ReqData.History r) ++ [userTurn r])
              false None false false
              (BridgeConfig.MaxTokens (ReqData.Config r))
              (BridgeConfig.Temperature (ReqData.Config r)))).
Proof.
  intros Hm. unfold modeOf in Hm. unfold buildPayload, docsOf, userTurn. rewrite Hm. cbn [String.eqb Ascii.eqb Bool.eqb].
  cbv iota. by rewrite <- app_assoc.
Qed.

Lemma buildPayload_search r :
  modeOf r = "search" ->
  buildPayload r =
    ("/v1/chunks",
     PChunks (ChunksRequest.mk (ReqData.Message r)
                (if emptySlice (docsOf r) then None
                 else Some (ContextFilter.mk (docsOf r)))
                10 1)).
Proof.
  intros Hm. unfold modeOf in Hm. unfold buildPayload, docsOf, userTurn. rewrite Hm. cbn [String.eqb Ascii.eqb Bool.eqb].
  cbv iota. rewrite nonempty_len. by destruct (emptySlice _).
Qed.

Lemma buildPayload_summarize r :
  modeOf r = "summarize" ->
  buildPayload r =
    ("/v1/completions",
     PCompletion (CompletionRequest.mk "private-gpt"
                    (String.append summarizePrefix (ReqData.Message r))
                    true
                    (if emptySlice (docsOf r) then None
                     else Some (ContextFilter.mk (docsOf r)))
                    true
                    (BridgeConfig.MaxTokens (ReqData.Config r))
                    (BridgeConfig.Temperature (ReqData.Config r)))).
Proof.
  intros Hm. unfold modeOf in Hm. unfold buildPayload, docsOf, userTurn. rewrite Hm. cbn [String.eqb Ascii.eqb Bool.eqb].
  cbv iota. rewrite nonempty_len. by destruct (emptySlice _).
Qed.

(** Every other mode string, the empty one of an absent field included,
    takes the [default] branch. *)
Lemma buildPayload_default r :
  modeOf r <> "search" -> modeOf r <> "basic" -> modeOf r <> "summarize" ->
  buildPayload r =
    ("/v1/chat/completions",
     PChat (ChatRequest.mk "private-gpt"
              (systemTurn (ReqData.SystemPrompt r) ++ ReqData.History r ++ [userTurn r])
              (BridgeConfig.UseContext (ReqData.Config r))
              (if BridgeConfig.UseContext (ReqData.Config r) && negb (emptySlice (docsOf r))
               then Some (ContextFilter.mk (docsOf r)) else None)
              true false
              (BridgeConfig.MaxTokens (ReqData.Config r))
              (BridgeConfig.Temperature (ReqData.Config r)))).
Proof.
  intros H1 H2 H3. unfold modeOf in H1, H2, H3. unfold buildPayload, docsOf, userTurn.
  apply String.eqb_neq in H1, H2, H3. rewrite H1, H2, H3.
  rewrite nonempty_len, <- app_assoc.
  by destruct (_ && _).
Qed.

Lemma jfield_context_filter_chat (c : ChatRequest.t) :
  jlookup "context_filter" (ChatRequest.marshal c)
  = ContextFilter.marshal <$> ChatRequest.ContextFilter c.
Proof.
  unfold ChatRequest.marshal, jstruct.
  destruct (ChatRequest.ContextFilter c), (emptyInt _), (emptyFloat _); reflexivity.
Qed.

Lemma jfield_chat_flags (c : ChatRequest.t) :
  jlookup "use_context" (ChatRequest.marshal c) = Some (JBool (ChatRequest.UseContext c))
  /\ jlookup "include_sources" (ChatRequest.marshal c)
     = Some (JBool (ChatRequest.IncludeSources c))
  /\ jlookup "stream" (ChatRequest.marshal c) = Some (JBool (ChatRequest.Stream c))
  /\ jlookup "messages" (ChatRequest.marshal c)
     = Some (JArray (map Message.marshal (ChatRequest.Messages c))).
Proof.
  unfold ChatRequest.marshal, jstruct.
  destruct (ChatRequest.ContextFilter c), (emptyInt _), (emptyFloat _);
    repeat split; reflexivity.
Qed.

Lemma jfield_stream_completion (c : CompletionRequest.t) :
  jlookup "stream" (CompletionRequest.marshal c) = None.
Proof.
  unfold CompletionRequest.marshal, jstruct.
  destruct (CompletionRequest.ContextFilter c), (emptyInt _), (emptyFloat _); reflexivity.
Qed.

Lemma jfield_stream_chunks (c : ChunksRequest.t) :
  jlookup "stream" (ChunksRequest.marshal c) = None.
Proof.
  unfold ChunksRequest.marshal, jstruct.
  destruct (ChunksRequest.ContextFilter c), (emptyInt (ChunksRequest.Limit c)),
    (emptyInt (ChunksRequest.PrevNextChunks c)); reflexivity.
Qed.

(** *** Basic mode carries no document context *)

(** C1. For every chat request whose mode is "basic", whatever its
    [use_context] and [selected_docs], the payload posted upstream is a chat
    request with [use_context] false and [include_sources] false, and its
    JSON document has no [context_filter] key. *)
Theorem basic_mode_forces_no_context (r : ReqData.t) :
  modeOf r = "basic" ->
  exists c : ChatRequest.t,
    buildPayload r = ("/v1/chat/completions", PChat c)
    /\ ChatRequest.UseContext c = false
    /\ ChatRequest.IncludeSources c = false
    /\ ChatRequest.ContextFilter c = None
    /\ jlookup "use_context" (chatBody r) = Some (JBool false)
    /\ jlookup "include_sources" (chatBody r) = Some (JBool false)
    /\ jlookup "context_filter" (chatBody r) = None.
Proof.
  intros Hm. eexists. split; [apply (buildPayload_basic r Hm)|].
  unfold chatBody. rewrite (buildPayload_basic r Hm). cbn [snd marshalPayload].
  rewrite jfield_context_filter_chat.
  pose proof (jfield_chat_flags
    (ChatRequest.mk "private-gpt"
       (systemTurn (ReqData.SystemPrompt r)
          ++ basicHistory (ReqData.History r) ++ [userTurn r])
       false None false false
       (BridgeConfig.MaxTokens (ReqData.Config r))
       (BridgeConfig.Temperature (ReqData.Config r)))) as (Hu & Hi & _ & _).
  repeat split; assumption.
Qed.

Lemma basic_mode_forces_no_context_witness :
  modeOf basicWithDocs = "basic"
  /\ BridgeConfig.UseContext (ReqData.Config basicWithDocs) = true
  /\ docsOf basicWithDocs = ["doc-1"; "doc-2"]
  /\ exists c : ChatRequest.t,
       buildPayload basicWithDocs = ("/v1/chat/completions", PChat c)
       /\ ChatRequest.UseContext c = false
       /\ ChatRequest.IncludeSources c = false
       /\ ChatRequest.ContextFilter c = None
       /\ jlookup "use_context" (chatBody basicWithDocs) = Some (JBool false)
       /\ jlookup "include_sources" (chatBody basicWithDocs) = Some (JBool false)
       /\ jlookup "context_filter" (chatBody basicWithDocs) = None.
Proof.
  split; [reflexivity|]. split; [reflexivity|]. split; [reflexivity|].
  apply (basic_mode_forces_no_context basicWithDocs). reflexivity.
Defined.

(** *** The stream field *)

(** C2, as stated, fails: in search mode the posted document is a chunks
    request, which has no [stream] field. *)
Lemma search_payload_has_no_stream :
  modeOf searchExample = "search"
  /\ jlookup "stream" (chatBody searchExample) = None
  /\ jlookup "stream" (chatBody searchExample) <> Some (JBool false).
Proof. split; [reflexivity|]. split; [reflexivity|]. discriminate. Qed.

(** C2, amended. The chat payloads (basic mode, and rag with every other
    mode string) carry [stream] with the value false; the chunks payload of
    search mode and the completion payload of summarize mode have no
    [stream] key.  No payload asks for streaming. *)
Theorem stream_field_by_mode (r : ReqData.t) :
  jlookup "stream" (chatBody r)
  = if String.eqb (modeOf r) "search" || String.eqb (modeOf r) "summarize"
    then None else Some (JBool false).
Proof.
  destruct (String.eqb (modeOf r) "search") eqn:E1.
  { apply String.eqb_eq in E1. unfold chatBody. rewrite (buildPayload_search r E1).
    apply jfield_stream_chunks. }
  destruct (String.eqb (modeOf r) "summarize") eqn:E3.
  { apply String.eqb_eq in E3. unfold chatBody. rewrite (buildPayload_summarize r E3).
    apply jfield_stream_completion. }
  cbn [orb]. apply String.eqb_neq in E1, E3.
  destruct (String.eqb (modeOf r) "basic") eqn:E2.
  - apply String.eqb_eq in E2. unfold chatBody. rewrite (buildPayload_basic r E2).
    cbn [snd marshalPayload]. apply jfield_chat_flags.
  - apply String.eqb_neq in E2. unfold chatBody.
    rewrite (buildPayload_default r E1 E2 E3).
    cbn [snd marshalPayload]. apply jfield_chat_flags.
Qed.

(** *** Rag mode, the default *)

(** C3. When the mode is "rag" or any string other than "search", "basic"
    and "summarize" (the empty string of an absent field included), the
    payload is a chat request whose messages are the system turn (present
    exactly when the system prompt is not empty), then the whole history
    unchanged, then the new user turn; [use_context] is the config value,
    [include_sources] is true, and a context filter over the selected
    documents is attached exactly when [use_context] is true and some
    document is selected. *)
Theorem rag_mode_payload (r : ReqData.t) :
  modeOf r <> "search" -> modeOf r <> "basic" -> modeOf r <> "summarize" ->
  exists c : ChatRequest.t,
    buildPayload r = ("/v1/chat/completions", PChat c)
    /\ (ReqData.SystemPrompt r = "" ->
        ChatRequest.Messages c = ReqData.History r ++ [userTurn r])
    /\ (ReqData.SystemPrompt r <> "" ->
        ChatRequest.Messages c
        = Message.mk "system" (ReqData.SystemPrompt r) :: ReqData.History r ++ [userTurn r])
    /\ ChatRequest.UseContext c = BridgeConfig.UseContext (ReqData.Config r)
    /\ ChatRequest.IncludeSources c = true
    /\ (BridgeConfig.UseContext (ReqData.Config r) = true /\ docsOf r <> [] ->
        ChatRequest.ContextFilter c = Some (ContextFilter.mk (docsOf r)))
    /\ (ChatRequest.ContextFilter c <> None <->
        BridgeConfig.UseContext (ReqData.Config r) = true /\ docsOf r <> [])
    /\ jlookup "messages" (chatBody r)
       = Some (JArray (map Message.marshal (ChatRequest.Messages c)))
    /\ jlookup "use_context" (chatBody r)
       = Some (JBool (BridgeConfig.UseContext (ReqData.Config r)))
    /\ jlookup "include_sources" (chatBody r) = Some (JBool true)
    /\ (jhas "context_filter" (chatBody r) = true <->
        BridgeConfig.UseContext (ReqData.Config r) = true /\ docsOf r <> []).
Proof.
  intros H1 H2 H3. eexists. split; [apply (buildPayload_default r H1 H2 H3)|].
  unfold chatBody, jhas. rewrite (buildPayload_default r H1 H2 H3).
  cbn [snd marshalPayload]. rewrite jfield_context_filter_chat.
  match goal with |- context [ChatRequest.marshal ?c] =>
    pose proof (jfield_chat_flags c) as (Hu & Hi & _ & Hmsg) end.
  cbn [ChatRequest.Messages ChatRequest.UseContext ChatRequest.IncludeSources
       ChatRequest.ContextFilter] in *.
  assert (Hdocs : emptySlice (docsOf r) = false <-> docsOf r <> []).
  { rewrite <- emptySlice_nil. destruct (emptySlice _); split; congruence. }
  split. { intros ->. by rewrite systemTurn_empty. }
  split. { intros Hsp. by rewrite (systemTurn_nonempty _ Hsp). }
  split; [reflexivity|]. split; [reflexivity|].
  split.
  { intros [-> Hd]. apply Hdocs in Hd. by rewrite Hd. }
  split.
  { destruct (BridgeConfig.UseContext _), (emptySlice (docsOf r)) eqn:E; cbn;
      rewrite <- Hdocs; split; intros; try congruence; intuition congruence. }
  split; [exact Hmsg|]. split; [exact Hu|]. split; [exact Hi|].
  destruct (BridgeConfig.UseContext _), (emptySlice (docsOf r)) eqn:E; cbn;
    rewrite <- Hdocs; split; intros; try congruence; intuition congruence.
Qed.

Lemma rag_mode_payload_witness :
  modeOf ragSixTurns <> "search" /\ modeOf ragSixTurns <> "basic"
  /\ modeOf ragSixTurns <> "summarize"
  /\ exists c : ChatRequest.t,
       buildPayload ragSixTurns = ("/v1/chat/completions", PChat c)
       /\ (ReqData.SystemPrompt ragSixTurns = "" ->
           ChatRequest.Messages c = ReqData.History ragSixTurns ++ [userTurn ragSixTurns])
       /\ (ReqData.SystemPrompt ragSixTurns <> "" ->
           ChatRequest.Messages c
           = Message.mk "system" (ReqData.SystemPrompt ragSixTurns)
               :: ReqData.History ragSixTurns ++ [userTurn ragSixTurns])
       /\ ChatRequest.UseContext c = BridgeConfig.UseContext (ReqData.Config ragSixTurns)
       /\ ChatRequest.IncludeSources c = true
       /\ (BridgeConfig.UseContext (ReqData.Config ragSixTurns) = true
           /\ docsOf ragSixTurns <> [] ->
           ChatRequest.ContextFilter c = Some (ContextFilter.mk (docsOf ragSixTurns)))
       /\ (ChatRequest.ContextFilter c <> None <->
           BridgeConfig.UseContext (ReqData.Config ragSixTurns) = true
           /\ docsOf ragSixTurns <> [])
       /\ jlookup "messages" (chatBody ragSixTurns)
          = Some (JArray (map Message.marshal (ChatRequest.Messages c)))
       /\ jlookup "use_context" (chatBody ragSixTurns)
          = Some (JBool (BridgeConfig.UseContext (ReqData.Config ragSixTurns)))
       /\ jlookup "include_sources" (chatBody ragSixTurns) = Some (JBool true)
       /\ (jhas "context_filter" (chatBody ragSixTurns) = true <->
           BridgeConfig.UseContext (ReqData.Config ragSixTurns) = true
           /\ docsOf ragSixTurns <> []).
Proof.
  split; [discriminate|]. split; [discriminate|]. split; [discriminate|].
  apply (rag_mode_payload ragSixTurns); discriminate.
Defined.

Example rag_six_turns_messages :
  buildPayload ragSixTurns
  = ("/v1/chat/completions",
     PChat (ChatRequest.mk "private-gpt"
              [Message.mk "system" "be brief";
               turn "1"; turn "2"; turn "3"; turn "4"; turn "5"; turn "6";
               Message.mk "user" "and then?"]
              true (Some (ContextFilter.mk ["doc-9"])) true false 0 PrimFloat.zero)).
Proof. reflexivity. Qed.

(** *** Basic mode keeps the last four turns *)

(** C4. In basic mode the messages are the optional system turn, the
    retained history and the new user turn.  A history of more than four
    turns is cut to its last four, a suffix of the history and so in the
    original order; a history of at most four turns is kept whole. *)
Theorem basic_history_truncation (r : ReqData.t) :
  modeOf r = "basic" ->
  exists (c : ChatRequest.t) (kept : list Message.t),
    buildPayload r = ("/v1/chat/completions", PChat c)
    /\ ChatRequest.Messages c
       = systemTurn (ReqData.SystemPrompt r) ++ kept ++ [userTurn r]
    /\ ((4 < length (ReqData.History r))%nat ->
        length kept = 4%nat
        /\ exists older, ReqData.History r = older ++ kept
                         /\ length older = (length (ReqData.History r) - 4)%nat)
    /\ ((length (ReqData.History r) <= 4)%nat -> kept = ReqData.History r).
Proof.
  intros Hm. eexists. exists (basicHistory (ReqData.History r)).
  split; [apply (buildPayload_basic r Hm)|]. cbn [ChatRequest.Messages].
  split; [reflexivity|].
  unfold basicHistory. split.
  - intros Hlen.
    destruct (Z.ltb_spec 4 (Z.of_nat (length (ReqData.History r)))) as [_|Hle]; [|lia].
    split; [rewrite length_drop; lia|].
    exists (take (length (ReqData.History r) - 4) (ReqData.History r)).
    split; [by rewrite take_drop|]. rewrite length_take. lia.
  - intros Hlen.
    destruct (Z.ltb_spec 4 (Z.of_nat (length (ReqData.History r)))) as [Hlt|_]; [lia|].
    reflexivity.
Qed.

Lemma basic_history_truncation_witness :
  modeOf basicSixTurns = "basic"
  /\ exists (c : ChatRequest.t) (kept : list Message.t),
       buildPayload basicSixTurns = ("/v1/chat/completions", PChat c)
       /\ ChatRequest.Messages c
          = systemTurn (ReqData.SystemPrompt basicSixTurns) ++ kept ++ [userTurn basicSixTurns]
       /\ ((4 < length (ReqData.History basicSixTurns))%nat ->
           length kept = 4%nat
           /\ exists older, ReqData.History basicSixTurns = older ++ kept
                            /\ length older
                               = (length (ReqData.History basicSixTurns) - 4)%nat)
       /\ ((length (ReqData.History basicSixTurns) <= 4)%nat ->
           kept = ReqData.History basicSixTurns).
Proof.
  split; [reflexivity|]. apply (basic_history_truncation basicSixTurns). reflexivity.
Defined.

Example basic_six_turns_messages :
  buildPayload basicSixTurns
  = ("/v1/chat/completions",
     PChat (ChatRequest.mk "private-gpt"
              [turn "3"; turn "4"; turn "5"; turn "6"; Message.mk "user" "and then?"]
              false None false false 0 PrimFloat.zero)).
Proof. reflexivity. Qed.

(** *** Search mode reads the message and the selected documents only *)

(** C9. Two search-mode requests with the same message and the same selected
    documents build the same payload, whatever their histories, system
    prompts and other settings: the chunks request with the message as text,
    limit 10, one neighbouring chunk on each side, and a context filter
    exactly when some document is selected. *)
Theorem search_payload_depends_on_message_and_docs (r1 r2 : ReqData.t) :
  modeOf r1 = "search" -> modeOf r2 = "search" ->
  ReqData.Message r1 = ReqData.Message r2 ->
  docsOf r1 = docsOf r2 ->
  buildPayload r1 = buildPayload r2
  /\ chatBody r1 = chatBody r2
  /\ exists c : ChunksRequest.t,
       buildPayload r1 = ("/v1/chunks", PChunks c)
       /\ ChunksRequest.Text c = ReqData.Message r1
       /\ ChunksRequest.Limit c = 10
       /\ ChunksRequest.PrevNextChunks c = 1
       /\ (docsOf r1 <> [] ->
           ChunksRequest.ContextFilter c = Some (ContextFilter.mk (docsOf r1)))
       /\ (docsOf r1 = [] -> ChunksRequest.ContextFilter c = None)
       /\ jlookup "text" (chatBody r1) = Some (JString (ReqData.Message r1))
       /\ jlookup "limit" (chatBody r1) = Some (JInt 10)
       /\ jlookup "prev_next_chunks" (chatBody r1) = Some (JInt 1)
       /\ (jhas "context_filter" (chatBody r1) = true <-> docsOf r1 <> []).
Proof.
  intros H1 H2 Hmsg Hdocs.
  assert (Heq : buildPayload r1 = buildPayload r2).
  { rewrite (buildPayload_search r1 H1), (buildPayload_search r2 H2).
    by rewrite Hmsg, Hdocs. }
  split; [exact Heq|]. split; [unfold chatBody; by rewrite Heq|].
  eexists. split; [apply (buildPayload_search r1 H1)|].
  unfold chatBody, jhas. rewrite (buildPayload_search r1 H1).
  cbn [snd marshalPayload ChunksRequest.Text ChunksRequest.Limit
       ChunksRequest.PrevNextChunks ChunksRequest.ContextFilter].
  destruct (docsOf r1) as [|d ds] eqn:Ed; cbn [emptySlice];
    (repeat split; try reflexivity; try congruence; try discriminate).
Qed.

Lemma search_payload_depends_on_message_and_docs_witness :
  (ReqData.History searchPlain <> ReqData.History searchWithHistory
   /\ ReqData.SystemPrompt searchPlain <> ReqData.SystemPrompt searchWithHistory)
  /\ modeOf searchPlain = "search" /\ modeOf searchWithHistory = "search"
  /\ ReqData.Message searchPlain = ReqData.Message searchWithHistory
  /\ docsOf searchPlain = docsOf searchWithHistory
  /\ buildPayload searchPlain = buildPayload searchWithHistory
  /\ chatBody searchPlain = chatBody searchWithHistory.
Proof.
  split; [split; discriminate|].
  split; [reflexivity|]. split; [reflexivity|]. split; [reflexivity|].
  split; [reflexivity|].
  destruct (search_payload_depends_on_message_and_docs searchPlain searchWithHistory)
    as (Hp & Hb & _); try reflexivity.
  split; assumption.
Defined.

Example search_plain_body :
  chatBody searchPlain
  = JObject [ ("text", JString "invoice");
              ("context_filter", JObject [("docs_ids", JArray [JString "doc-1"])]);
              ("limit", JInt 10); ("prev_next_chunks", JInt 1) ].
Proof. reflexivity. Qed.

(** ** The file registry view *)

(** *** Go's string order *)

Lemma ascii_compare_refl (a : ascii) : Ascii.compare a a = Eq.
Proof. unfold Ascii.compare. apply N.compare_refl. Qed.

Lemma string_compare_refl (s : string) : String.compare s s = Eq.
Proof. induction s as [|a s IH]; cbn; [reflexivity|]. by rewrite ascii_compare_refl. Qed.

Lemma string_leb_refl (s : string) : String.leb s s = true.
Proof. unfold String.leb. by rewrite string_compare_refl. Qed.

Lemma string_compare_not_gt_trans (s1 s2 s3 : string) :
  String.compare s1 s2 <> Gt -> String.compare s2 s3 <> Gt -> String.compare s1 s3 <> Gt.
Proof.
  revert s2 s3. induction s1 as [|a s1 IH]; intros [|b s2] [|c s3]; cbn; try congruence.
  destruct (Ascii.compare a b) eqn:Eab; [| |congruence].
  - apply Ascii.compare_eq_iff in Eab. subst b.
    destruct (Ascii.compare a c); [apply IH | congruence | congruence].
  - intros _. destruct (Ascii.compare b c) eqn:Ebc; [| |congruence].
    + apply Ascii.compare_eq_iff in Ebc. subst c. rewrite Eab. congruence.
    + intros _. unfold Ascii.compare in *.
      rewrite N.compare_lt_iff in Eab, Ebc.
      assert (Hac : (N_of_ascii a < N_of_ascii c)%N) by lia.
      apply N.compare_lt_iff in Hac. rewrite Hac. congruence.
Qed.

Lemma string_leb_trans (s1 s2 s3 : string) :
  String.leb s1 s2 = true -> String.leb s2 s3 = true -> String.leb s1 s3 = true.
Proof.
  unfold String.leb. intros H12 H23.
  pose proof (string_compare_not_gt_trans s1 s2 s3) as Ht.
  destruct (String.compare s1 s2), (String.compare s2 s3), (String.compare s1 s3);
    try reflexivity; try discriminate; exfalso; apply Ht; congruence.
Qed.

(** [a > b] fails exactly when [a <= b]. *)
Lemma stringGt_false_leb (a b : string) : stringGt a b = false <-> String.leb a b = true.
Proof.
  unfold stringGt, String.ltb, String.leb. rewrite (String.compare_antisym a b).
  destruct (String.compare b a); cbn; split; congruence.
Qed.

Lemma stringGt_leb (a b : string) : stringGt a b = true -> String.leb b a = true.
Proof. unfold stringGt, String.ltb, String.leb. by destruct (String.compare b a). Qed.

(** *** The loop invariant of the deduplication *)

Lemma dedupFiles_snoc (data : list FileInfo.t) (file : FileInfo.t) :
  dedupFiles (data ++ [file]) = dedupStep (dedupFiles data) file.
Proof. unfold dedupFiles. apply foldl_snoc. Qed.

Lemma dedupStep_slot_ok (data : list FileInfo.t) (m : gmap string FileInfo.t)
    (file : FileInfo.t) :
  (forall k, slot_ok data k (m !! k)) ->
  forall k, slot_ok (data ++ [file]) k (dedupStep m file !! k).
Proof.
  intros Hinv k. specialize (Hinv k). unfold dedupStep.
  destruct (decide (fileNameOf file = k)) as [Hk|Hk].
  - (* the record read lands in slot [k] *)
    rewrite Hk. destruct (m !! k) as [existing|] eqn:Em.
    + destruct Hinv as (Hin & Hname & Hmax).
      destruct (stringGt (FileInfo.DocID file) (FileInfo.DocID existing)) eqn:Egt.
      * rewrite lookup_insert_eq. cbn. split; [set_solver|]. split; [exact Hk|].
        intros f Hf Hfk. apply elem_of_app in Hf as [Hf|Hf].
        -- eapply string_leb_trans; [apply (Hmax f Hf Hfk)|]. by apply stringGt_leb.
        -- apply list_elem_of_singleton in Hf. subst f. apply string_leb_refl.
      * rewrite Em. cbn. split; [set_solver|]. split; [exact Hname|].
        intros f Hf Hfk. apply elem_of_app in Hf as [Hf|Hf]; [by apply Hmax|].
        apply list_elem_of_singleton in Hf. subst f. by apply stringGt_false_leb.
    + rewrite lookup_insert_eq. cbn. split; [set_solver|]. split; [exact Hk|].
      intros f Hf Hfk. apply elem_of_app in Hf as [Hf|Hf].
      * exfalso. by apply (Hinv f Hf).
      * apply list_elem_of_singleton in Hf. subst f. apply string_leb_refl.
  - (* another slot: untouched *)
    assert (Hsame : (match m !! fileNameOf file with
                     | Some existing =>
                         if stringGt (FileInfo.DocID file) (FileInfo.DocID existing)
                         then <[fileNameOf file := file]> m else m
                     | None => <[fileNameOf file := file]> m
                     end) !! k = m !! k).
    { destruct (m !! fileNameOf file) as [existing|];
        [destruct (stringGt _ _)|]; try reflexivity; by rewrite lookup_insert_ne. }
    cbv zeta. rewrite Hsame. destruct (m !! k) as [kept|]; cbn in *.
    + destruct Hinv as (Hin & Hname & Hmax). split; [set_solver|]. split; [exact Hname|].
      intros f Hf Hfk. apply elem_of_app in Hf as [Hf|Hf]; [by apply Hmax|].
      apply list_elem_of_singleton in Hf. subst f. contradiction.
    + intros f Hf. apply elem_of_app in Hf as [Hf|Hf]; [by apply Hinv|].
      apply list_elem_of_singleton in Hf. by subst f.
Qed.

Lemma dedupFiles_slot_ok (data : list FileInfo.t) (k : string) :
  slot_ok data k (dedupFiles data !! k).
Proof.
  revert k. induction data as [|file data IH] using rev_ind; intros k.
  - unfold dedupFiles. cbn. rewrite lookup_empty. cbn. intros f Hf. by apply elem_of_nil in Hf.
  - rewrite dedupFiles_snoc. by apply dedupStep_slot_ok.
Qed.

Lemma slot_ok_perm (data data' : list FileInfo.t) (k : string) (slot : option FileInfo.t) :
  data ≡ₚ data' -> slot_ok data k slot -> slot_ok data' k slot.
Proof.
  intros Hp. destruct slot as [kept|]; cbn.
  - intros (Hin & Hname & Hmax). split; [by rewrite <- Hp|]. split; [exact Hname|].
    intros f Hf. apply Hmax. by rewrite Hp.
  - intros Hnone f Hf. apply Hnone. by rewrite Hp.
Qed.

(** Two admissible contents of a slot hold the same [doc_id]. *)
Lemma slot_ok_same_doc_id (data : list FileInfo.t) (k : string) (s1 s2 : option FileInfo.t) :
  slot_ok data k s1 -> slot_ok data k s2 ->
  FileInfo.DocID <$> s1 = FileInfo.DocID <$> s2.
Proof.
  destruct s1 as [r1|], s2 as [r2|]; cbn.
  - intros (Hin1 & Hk1 & Hmax1) (Hin2 & Hk2 & Hmax2). f_equal.
    apply String.leb_antisym; [by apply Hmax2 | by apply Hmax1].
  - intros (Hin1 & Hk1 & _) Hnone. exfalso. by apply (Hnone r1).
  - intros Hnone (Hin2 & Hk2 & _). exfalso. by apply (Hnone r2).
  - reflexivity.
Qed.

(** A record whose [doc_id] is greater than that of every other record of
    its display name is the one the slot holds. *)
Lemma slot_ok_greatest (data : list FileInfo.t) (best : FileInfo.t) (slot : option FileInfo.t) :
  best ∈ data ->
  (forall f, f ∈ data -> fileNameOf f = fileNameOf best ->
     f = best \/ stringGt (FileInfo.DocID best) (FileInfo.DocID f) = true) ->
  slot_ok data (fileNameOf best) slot -> slot = Some best.
Proof.
  intros Hin Hbest. destruct slot as [kept|]; cbn.
  - intros (Hk & Hname & Hmax). f_equal.
    destruct (Hbest kept Hk Hname) as [->|Hgt]; [reflexivity|].
    exfalso. specialize (Hmax best Hin eq_refl).
    apply stringGt_false_leb in Hmax. congruence.
  - intros Hnone. exfalso. by apply (Hnone best).
Qed.

(** C5. The deduplicated view files every record under its metadata
    [file_name], or under "Unknown" when it has none, so that records
    without a file name share one slot.  A slot holds one of the records
    filed there, with the greatest [doc_id] among them, and this [doc_id]
    is the same for every order of the upstream list; a record whose
    [doc_id] is greater than that of every other record of its name is the
    record retained, in every order. *)
Theorem dedup_view_keeps_greatest_doc_id (data data' : list FileInfo.t) :
  data ≡ₚ data' ->
  (forall f, f ∈ data ->
     (forall md name,
        FileInfo.DocMetadata f = Some md -> md !! "file_name" = Some (JString name) ->
        fileNameOf f = name)
     /\ (FileInfo.DocMetadata f = None
         \/ (exists md, FileInfo.DocMetadata f = Some md /\ md !! "file_name" = None) ->
         fileNameOf f = "Unknown")
     /\ exists kept,
          dedupFiles data !! fileNameOf f = Some kept
          /\ String.leb (FileInfo.DocID f) (FileInfo.DocID kept) = true)
  /\ (forall k kept, dedupFiles data !! k = Some kept -> kept ∈ data /\ fileNameOf kept = k)
  /\ (forall k, FileInfo.DocID <$> (dedupFiles data !! k)
                = FileInfo.DocID <$> (dedupFiles data' !! k))
  /\ (forall best, best ∈ data ->
        (forall f, f ∈ data -> fileNameOf f = fileNameOf best ->
           f = best \/ stringGt (FileInfo.DocID best) (FileInfo.DocID f) = true) ->
        dedupFiles data !! fileNameOf best = Some best
        /\ dedupFiles data' !! fileNameOf best = Some best).
Proof.
  intros Hp. split; [|split; [|split]].
  - intros f Hf. split; [|split].
    + intros md name Hmd Hname. unfold fileNameOf. by rewrite Hmd, Hname.
    + intros [Hnil|(md & Hmd & Hnone)]; unfold fileNameOf.
      * by rewrite Hnil.
      * by rewrite Hmd, Hnone.
    + pose proof (dedupFiles_slot_ok data (fileNameOf f)) as Hslot.
      destruct (dedupFiles data !! fileNameOf f) as [kept|]; cbn in Hslot.
      * destruct Hslot as (_ & _ & Hmax). exists kept. split; [reflexivity|by apply Hmax].
      * exfalso. by apply (Hslot f).
  - intros k kept Hk. pose proof (dedupFiles_slot_ok data k) as Hslot.
    rewrite Hk in Hslot. cbn in Hslot. tauto.
  - intros k. apply (slot_ok_same_doc_id data k).
    + apply dedupFiles_slot_ok.
    + apply (slot_ok_perm data' data); [by symmetry|apply dedupFiles_slot_ok].
  - intros best Hin Hbest. split.
    + apply (slot_ok_greatest data best); [assumption..|apply dedupFiles_slot_ok].
    + apply (slot_ok_greatest data best); [assumption..|].
      apply (slot_ok_perm data' data); [by symmetry|apply dedupFiles_slot_ok].
Qed.

Lemma dedup_view_keeps_greatest_doc_id_witness :
  [reportA; reportB; anonymous1; anonymous2] ≡ₚ [reportB; reportA; anonymous1; anonymous2]
  /\ dedupFiles [reportA; reportB; anonymous1; anonymous2] !! fileNameOf reportB
     = Some reportB
  /\ dedupFiles [reportB; reportA; anonymous1; anonymous2] !! fileNameOf reportB
     = Some reportB.
Proof.
  split; [apply perm_swap|].
  apply (dedup_view_keeps_greatest_doc_id
           [reportA; reportB; anonymous1; anonymous2]
           [reportB; reportA; anonymous1; anonymous2]); [apply perm_swap|set_solver|].
  intros f Hf Hname.
  repeat (apply elem_of_cons in Hf as [->|Hf]);
    [right; reflexivity | left; reflexivity | discriminate Hname | discriminate Hname |].
  by apply elem_of_nil in Hf.
Defined.

Example dedup_two_versions :
  dedupFiles [reportA; reportB] = {[ "report.pdf" := reportB ]}
  /\ dedupFiles [reportB; reportA] = {[ "report.pdf" := reportB ]}.
Proof. split; apply map_eq; intros k; vm_compute; reflexivity. Qed.

Example dedup_missing_names_collide :
  fileNameOf anonymous1 = "Unknown" /\ fileNameOf anonymous2 = "Unknown"
  /\ dedupFiles [anonymous1; anonymous2] !! "Unknown" = Some anonymous2
  /\ dedupFiles [anonymous2; anonymous1] !! "Unknown" = Some anonymous2.
Proof. repeat split; vm_compute; reflexivity. Qed.

(** ** Bulk delete *)

Lemma incr_small (z : Z) : 0 <= z < intMax -> incr z = z + 1.
Proof.
  unfold incr, wrapInt, intMax. intros Hz.
  rewrite Z.mod_small; lia.
Qed.

Section DeleteAll.

Variable World : Type.
Variable httpGet : string -> World -> (string + Response) * World.
Variable decodeList : string -> string + ListFilesResponse.t.
Variable newRequest : string -> string -> string + Request.
Variable clientDo : Request -> World -> (string + Response) * World.

Abbreviation stepW := (deleteStep World newRequest clientDo).
Abbreviation loopW := (deleteLoop World newRequest clientDo).
Abbreviation attemptW := (attempt World newRequest clientDo).
Abbreviation attemptsW := (attempts World newRequest clientDo).
Abbreviation handlerW :=
  (deleteAllFilesHandler World httpGet decodeList newRequest clientDo).

(** One iteration against the outcome of its delete: a failure adds one to
    [failedCount] and appends the display name, a success adds one to
    [deletedCount]; the loop goes on in either case. *)
Lemma deleteStep_attempt (file : FileInfo.t) (c : Counters) (s : World * list Request) :
  stepW file c s
  = let '(o, s') := attemptW file s in
    (if isFailure o
     then mkCounters (deletedCount c) (incr (failedCount c))
            (failedFiles c ++ [fileNameOf file])
     else mkCounters (incr (deletedCount c)) (failedCount c) (failedFiles c),
     s').
Proof.
  unfold deleteStep, attempt, failOne.
  destruct (newRequest _ _) as [e|req]; [reflexivity|].
  unfold bind, Do. destruct s as [w sent].
  destruct (clientDo req w) as [[e|resp] w']; [reflexivity|].
  by destruct (StatusCode resp =? 200)%Z.
Qed.

Lemma attempts_length (data : list FileInfo.t) (s : World * list Request) :
  length (fst (attemptsW data s)) = length data.
Proof.
  revert s. induction data as [|file rest IH]; intros s; [reflexivity|].
  cbn [attempts]. unfold bind at 1.
  destruct (attemptW file s) as [o s1]. unfold bind, ret.
  specialize (IH s1). destruct (attemptsW rest s1) as [os s2]. cbn in *. by rewrite IH.
Qed.

Lemma counts_total (os : list Outcome) : deletedOf os + failedOf os = len os.
Proof.
  unfold deletedOf, failedOf, len.
  induction os as [|o os IH]; [reflexivity|].
  cbn [List.filter length]. destruct (isFailure o); cbn [negb length]; lia.
Qed.

Lemma counts_nonneg (os : list Outcome) : 0 <= deletedOf os /\ 0 <= failedOf os.
Proof. unfold deletedOf, failedOf. lia. Qed.

Lemma failedNames_length (data : list FileInfo.t) (os : list Outcome) :
  length data = length os -> len (failedNames data os) = failedOf os.
Proof.
  unfold len, failedOf. revert os.
  induction data as [|file rest IH]; intros [|o os] Hlen; try discriminate; [reflexivity|].
  cbn [failedNames List.filter]. injection Hlen as Hlen. specialize (IH os Hlen).
  destruct (isFailure o); cbn [length]; lia.
Qed.

(** The loop as a whole, while the counters stay within [int]. *)
Lemma deleteLoop_attempts (data : list FileInfo.t) (c : Counters) (s : World * list Request) :
  0 <= deletedCount c -> 0 <= failedCount c ->
  deletedCount c + failedCount c + len data <= intMax ->
  loopW data c s
  = let '(os, s') := attemptsW data s in
    (mkCounters (deletedCount c + deletedOf os) (failedCount c + failedOf os)
       (failedFiles c ++ failedNames data os),
     s').
Proof.
  revert c s. induction data as [|file rest IH]; intros c s Hd Hf Hmax.
  - cbn. unfold ret, deletedOf, failedOf. cbn. rewrite !Z.add_0_r, app_nil_r.
    by destruct c.
  - cbn [deleteLoop attempts]. unfold bind, ret.
    rewrite deleteStep_attempt. destruct (attemptW file s) as [o s1].
    unfold len in Hmax. cbn [length] in Hmax.
    destruct (isFailure o) eqn:Eo.
    + rewrite IH; cbn [deletedCount failedCount failedFiles];
        try rewrite incr_small; unfold len; try lia.
      destruct (attemptsW rest s1) as [os s2].
      unfold deletedOf, failedOf. cbn [List.filter failedNames]. rewrite Eo.
      cbn [negb length]. rewrite <- app_assoc. cbn [app]. f_equal. f_equal; lia.
    + rewrite IH; cbn [deletedCount failedCount failedFiles];
        try rewrite incr_small; unfold len; try lia.
      destruct (attemptsW rest s1) as [os s2].
      unfold deletedOf, failedOf. cbn [List.filter failedNames]. rewrite Eo.
      cbn [negb length]. f_equal. f_equal; lia.
Qed.

Lemma bulkResult_lookup (c : Counters) (total : Z) :
  bulkResult c total !! "success" = Some (JBool true)
  /\ bulkResult c total !! "deleted_count" = Some (JInt (deletedCount c))
  /\ bulkResult c total !! "failed_count" = Some (JInt (failedCount c))
  /\ bulkResult c total !! "total_files" = Some (JInt total)
  /\ bulkResult c total !! "failed_files"
     = if (len (failedFiles c) =? 0)%Z then None
       else Some (JArray (map JString (failedFiles c))).
Proof.
  unfold bulkResult, len.
  destruct (failedFiles c) as [|n ns]; cbn [length Z.of_nat Z.ltb Z.eqb Z.compare];
    repeat split; by simplify_map_eq.
Qed.

(** The handler on a list of at least one record: the list call, then the
    loop, then the result map. *)
Lemma handler_nonempty (w w1 : World) (resp : Response) (listResp : ListFilesResponse.t) :
  httpGet listURL w = (inr resp, w1) ->
  StatusCode resp = 200 ->
  decodeList (RespBody resp) = inr listResp ->
  ListFilesResponse.Data listResp <> [] ->
  handlerW "DELETE" (w, [])
  = let '(c, s) := loopW (ListFilesResponse.Data listResp) (mkCounters 0 0 [])
                     (w1, [mkRequest "GET" listURL]) in
    (mkReply 200 (BMap (bulkResult c (len (ListFilesResponse.Data listResp)))), s).
Proof.
  intros Hget Hst Hdec Hne. unfold deleteAllFilesHandler. cbn [String.eqb Ascii.eqb Bool.eqb negb].
  cbv iota. unfold bind at 1. unfold Get. fold listURL. rewrite Hget. cbn [app].
  rewrite Hst, Z.eqb_refl. cbn [negb]. cbv iota. rewrite Hdec.
  destruct (ListFilesResponse.Data listResp) as [|file rest] eqn:Ed; [congruence|].
  unfold len at 1. cbn [length].
  destruct (Z.eqb_spec (Z.of_nat (S (length rest))) 0) as [H0|_]; [lia|].
  unfold bind, ret. by destruct (loopW _ _ _).
Qed.

(** An empty list ends the handler after the list call. *)
Lemma handler_empty (w w1 : World) (resp : Response) (listResp : ListFilesResponse.t) :
  httpGet listURL w = (inr resp, w1) ->
  StatusCode resp = 200 ->
  decodeList (RespBody resp) = inr listResp ->
  ListFilesResponse.Data listResp = [] ->
  handlerW "DELETE" (w, [])
  = (mkReply 200 (BMap noFilesResult), (w1, [mkRequest "GET" listURL])).
Proof.
  intros Hget Hst Hdec Hnil. unfold deleteAllFilesHandler.
  cbn [String.eqb Ascii.eqb Bool.eqb negb]. cbv iota.
  unfold bind at 1. unfold Get. fold listURL. rewrite Hget. cbn [app].
  rewrite Hst, Z.eqb_refl. cbn [negb]. cbv iota. by rewrite Hdec, Hnil.
Qed.

(** C7. On a list of at least one record the handler attempts one delete per
    record, in order.  A delete that fails (the request cannot be built, the
    call fails, or the status is not 200) adds one to [failedCount] and
    appends the display name of the record, and the loop goes on; a delete
    answered 200 adds one to [deletedCount].  The reply is 200 with
    [success] true, [total_files] the length of the list, the two counts,
    and the names of the failed records in order when there are any. *)
Theorem bulk_delete_tolerates_failures
    (w w1 : World) (resp : Response) (listResp : ListFilesResponse.t) :
  httpGet listURL w = (inr resp, w1) ->
  StatusCode resp = 200 ->
  decodeList (RespBody resp) = inr listResp ->
  ListFilesResponse.Data listResp <> [] ->
  len (ListFilesResponse.Data listResp) <= intMax ->
  let data := ListFilesResponse.Data listResp in
  let run := attemptsW data (w1, [mkRequest "GET" listURL]) in
  (forall file c s,
     stepW file c s
     = let '(o, s') := attemptW file s in
       (if isFailure o
        then mkCounters (deletedCount c) (incr (failedCount c))
               (failedFiles c ++ [fileNameOf file])
        else mkCounters (incr (deletedCount c)) (failedCount c) (failedFiles c),
        s'))
  /\ length (fst run) = length data
  /\ exists m : gmap string JValue,
       handlerW "DELETE" (w, []) = (mkReply 200 (BMap m), snd run)
       /\ m !! "success" = Some (JBool true)
       /\ m !! "total_files" = Some (JInt (len data))
       /\ m !! "deleted_count" = Some (JInt (deletedOf (fst run)))
       /\ m !! "failed_count" = Some (JInt (failedOf (fst run)))
       /\ m !! "failed_files"
          = if (failedOf (fst run) =? 0)%Z then None
            else Some (JArray (map JString (failedNames data (fst run)))).
Proof.
  intros Hget Hst Hdec Hne Hmax data run. subst data run.
  split; [apply deleteStep_attempt|]. split; [apply attempts_length|].
  rewrite (handler_nonempty w w1 resp listResp Hget Hst Hdec Hne).
  rewrite deleteLoop_attempts by (cbn; lia).
  pose proof (attempts_length (ListFilesResponse.Data listResp)
                (w1, [mkRequest "GET" listURL])) as Hl.
  destruct (attemptsW _ _) as [os s']. cbn [fst snd] in *.
  cbn [deletedCount failedCount failedFiles app].
  eexists. split; [reflexivity|].
  match goal with |- context [bulkResult ?c ?t] =>
    pose proof (bulkResult_lookup c t) as (Hs & Hd & Hf & Ht & Hff) end.
  cbn [deletedCount failedCount failedFiles] in *.
  rewrite (failedNames_length _ os (eq_sym Hl)) in Hff.
  repeat split; assumption.
Qed.

(** C10. On a list of N records, with N at least one, every record counts
    once: the reply reports [deleted_count] and [failed_count] that add up
    to N, which is [total_files], and lists as many failed names as
    [failed_count] says (the key is left out when it is zero), whatever the
    outcome of each delete. *)
Theorem bulk_delete_counts_add_up
    (w w1 : World) (resp : Response) (listResp : ListFilesResponse.t) :
  httpGet listURL w = (inr resp, w1) ->
  StatusCode resp = 200 ->
  decodeList (RespBody resp) = inr listResp ->
  ListFilesResponse.Data listResp <> [] ->
  len (ListFilesResponse.Data listResp) <= intMax ->
  exists (m : gmap string JValue) (d f : Z) (names : list string),
    fst (handlerW "DELETE" (w, [])) = mkReply 200 (BMap m)
    /\ m !! "deleted_count" = Some (JInt d)
    /\ m !! "failed_count" = Some (JInt f)
    /\ m !! "total_files" = Some (JInt (len (ListFilesResponse.Data listResp)))
    /\ 0 <= d /\ 0 <= f
    /\ d + f = len (ListFilesResponse.Data listResp)
    /\ len names = f
    /\ m !! "failed_files"
       = if (f =? 0)%Z then None else Some (JArray (map JString names)).
Proof.
  intros Hget Hst Hdec Hne Hmax.
  rewrite (handler_nonempty w w1 resp listResp Hget Hst Hdec Hne).
  rewrite deleteLoop_attempts by (cbn; lia).
  pose proof (attempts_length (ListFilesResponse.Data listResp)
                (w1, [mkRequest "GET" listURL])) as Hl.
  destruct (attemptsW _ _) as [os s']. cbn [fst] in *.
  cbn [deletedCount failedCount failedFiles app].
  match goal with |- context [bulkResult ?c ?t] =>
    pose proof (bulkResult_lookup c t) as (Hs & Hd & Hf & Ht & Hff) end.
  cbn [deletedCount failedCount failedFiles] in *.
  pose proof (failedNames_length (ListFilesResponse.Data listResp) os (eq_sym Hl)) as Hn.
  rewrite Hn in Hff.
  eexists. exists (deletedOf os), (failedOf os),
    (failedNames (ListFilesResponse.Data listResp) os).
  split; [reflexivity|].
  pose proof (counts_total os) as Htot. pose proof (counts_nonneg os) as [H0d H0f].
  repeat split; try assumption. unfold len in *. lia.
Qed.

End DeleteAll.

Lemma bulk_delete_tolerates_failures_witness :
  exists m : gmap string JValue,
    deleteAllFilesHandler nat (scriptGet "five") scriptDecode scriptNewRequest scriptDo
      "DELETE" (0%nat, [])
    = (mkReply 200 (BMap m),
       (6%nat,
        [ mkRequest "GET" listURL;
          mkRequest "DELETE" "http://localhost:8001/v1/ingest/id-1";
          mkRequest "DELETE" "http://localhost:8001/v1/ingest/id-2";
          mkRequest "DELETE" "http://localhost:8001/v1/ingest/id-3";
          mkRequest "DELETE" "http://localhost:8001/v1/ingest/id-4";
          mkRequest "DELETE" "http://localhost:8001/v1/ingest/id-5" ]))
    /\ m !! "success" = Some (JBool true)
    /\ m !! "total_files" = Some (JInt 5)
    /\ m !! "deleted_count" = Some (JInt 3)
    /\ m !! "failed_count" = Some (JInt 2)
    /\ m !! "failed_files" = Some (JArray [JString "b.pdf"; JString "Unknown"]).
Proof.
  destruct (bulk_delete_tolerates_failures nat (scriptGet "five") scriptDecode
              scriptNewRequest scriptDo 0%nat 1%nat (mkResponse 200 "five")
              (ListFilesResponse.mk "list" "private-gpt" fiveFiles))
    as (_ & _ & m & Hrun & Hs & Ht & Hd & Hf & Hff);
    [reflexivity | reflexivity | reflexivity | discriminate | vm_compute; discriminate |].
  exists m. split; [exact Hrun|]. split; [exact Hs|]. split; [exact Ht|].
  split; [exact Hd|]. split; [exact Hf|]. exact Hff.
Defined.

Lemma bulk_delete_counts_add_up_witness :
  exists (m : gmap string JValue) (d f : Z) (names : list string),
    fst (deleteAllFilesHandler nat (scriptGet "five") scriptDecode scriptNewRequest
           scriptDo "DELETE" (0%nat, []))
    = mkReply 200 (BMap m)
    /\ m !! "deleted_count" = Some (JInt d)
    /\ m !! "failed_count" = Some (JInt f)
    /\ m !! "total_files" = Some (JInt 5)
    /\ 0 <= d /\ 0 <= f
    /\ d + f = 5
    /\ len names = f
    /\ m !! "failed_files"
       = if (f =? 0)%Z then None else Some (JArray (map JString names)).
Proof.
  apply (bulk_delete_counts_add_up nat (scriptGet "five") scriptDecode
           scriptNewRequest scriptDo 0%nat 1%nat (mkResponse 200 "five")
           (ListFilesResponse.mk "list" "private-gpt" fiveFiles));
    [reflexivity | reflexivity | reflexivity | discriminate | vm_compute; discriminate].
Defined.

(** The spec's example: two of five deletes fail. *)
Example two_of_five_fail :
  fst (deleteAllFilesHandler nat (scriptGet "five") scriptDecode scriptNewRequest
         scriptDo "DELETE" (0%nat, []))
  = mkReply 200 (BMap
      (<["success" := JBool true]>
      (<["message" := JString "Bulk delete completed: 3 deleted, 2 failed"]>
      (<["deleted_count" := JInt 3]>
      (<["failed_count" := JInt 2]>
      (<["total_files" := JInt 5]>
      (<["failed_files" := JArray [JString "b.pdf"; JString "Unknown"]]> ∅))))))).
Proof. vm_compute. reflexivity. Qed.

(** C6. On an empty upstream list the handler replies 200 after the list
    call alone, with [success] true and both counts 0; the reply map has no
    [total_files] entry, which the claim expects to be there with value 0. *)
Theorem delete_all_empty_list_reply :
  deleteAllFilesHandler nat (scriptGet "none") scriptDecode scriptNewRequest scriptDo
    "DELETE" (0%nat, [])
  = (mkReply 200 (BMap noFilesResult), (1%nat, [mkRequest "GET" listURL]))
  /\ noFilesResult !! "success" = Some (JBool true)
  /\ noFilesResult !! "deleted_count" = Some (JInt 0)
  /\ noFilesResult !! "failed_count" = Some (JInt 0)
  /\ noFilesResult !! "total_files" = None.
Proof.
  split; [apply (handler_empty nat (scriptGet "none") scriptDecode scriptNewRequest
                   scriptDo 0%nat 1%nat (mkResponse 200 "none")
                   (ListFilesResponse.mk "list" "private-gpt" [])); reflexivity|].
  repeat split; vm_compute; reflexivity.
Qed.

(** ** Upload *)

Section Upload.

Variable World : Type.
Variable newRequest : string -> string -> string + Request.
Variable clientDo : Request -> World -> (string + Response) * World.
Variable Incoming : Type.
Variable Method : Incoming -> string.
Variable ParseMultipartForm : Incoming -> Z -> string + Form.
Variable FileHandle : Type.
Variable openFile : FileHeader -> string + FileHandle.
Variable ToLower : string -> string.
Variable createFormFile : string -> string -> option string.
Variable ioCopy : FileHandle -> option string.

Abbreviation uploadW :=
  (uploadHandler World newRequest clientDo Incoming Method ParseMultipartForm
     FileHandle openFile ToLower createFormFile ioCopy).
Abbreviation formFileW := (FormFile FileHandle openFile).

(** A form that does not parse is answered 400 and nothing is sent. *)
Lemma upload_parse_error (r : Incoming) (e : string) (s : World * list Request) :
  Method r = "POST" ->
  ParseMultipartForm r MAX_FILE_SIZE = inl e ->
  uploadW r s = (mkReply 400 (BText "File too large or invalid"), s).
Proof.
  intros Hm Hp. unfold uploadHandler. rewrite Hm, Hp. reflexivity.
Qed.

(** A file whose lower-cased extension is not in the table is answered 400
    and nothing is sent, whatever the library does. *)
Lemma upload_unsupported_extension
    (r : Incoming) (form : Form) (file : FileHandle) (header : FileHeader)
    (s : World * list Request) :
  Method r = "POST" ->
  ParseMultipartForm r MAX_FILE_SIZE = inr form ->
  formFileW form "file" = inr (file, header) ->
  allowed (ToLower (filepathExt (Filename header))) = false ->
  uploadW r s = (mkReply 400 (BText "File type not supported"), s).
Proof.
  intros Hm Hp Hf Hext. unfold uploadHandler. rewrite Hm, Hp, Hf.
  cbv zeta. rewrite Hext. reflexivity.
Qed.

(** X20. The upload handler sends at most one request, and none unless the
    form parsed, held a file under "file", and the lower-cased extension of
    its name is in the table. *)
Lemma upload_sends_only_allowed (r : Incoming) (s : World * list Request) :
  snd (snd (uploadW r s)) = snd s
  \/ exists form file header req,
       ParseMultipartForm r MAX_FILE_SIZE = inr form
       /\ formFileW form "file" = inr (file, header)
       /\ allowed (ToLower (filepathExt (Filename header))) = true
       /\ snd (snd (uploadW r s)) = snd s ++ [req].
Proof.
  unfold uploadHandler.
  destruct (negb (String.eqb (Method r) "POST")); [by left|].
  destruct (ParseMultipartForm r MAX_FILE_SIZE) as [e|form] eqn:Hp; [by left|].
  destruct (formFileW form "file") as [e|[file header]] eqn:Hf; [by left|].
  cbv zeta. destruct (allowed _) eqn:Hext; [|by left]. cbn [negb].
  destruct (createFormFile _ _); [by left|].
  destruct (ioCopy file); [by left|].
  destruct (newRequest _ _) as [e|req]; [by left|].
  right. exists form, file, header, req. repeat split; try assumption.
  unfold bind, Do. destruct s as [w sent]. by destruct (clientDo req w) as [[e|resp] w'].
Qed.

End Upload.

Example malware_is_rejected :
  runUpload malwareUpload (0%nat, [])
  = (mkReply 400 (BText "File type not supported"), (0%nat, [])).
Proof. vm_compute. reflexivity. Qed.

Example upper_case_extension_is_accepted :
  runUpload upperCaseUpload (0%nat, [])
  = (mkReply 200 (BCopy "{}"),
     (1%nat, [mkRequest "POST" "http://localhost:8001/v1/ingest/file"])).
Proof. vm_compute. reflexivity. Qed.

(** C8. A file with an extension outside the table is refused before any
    upstream call ([upload_unsupported_extension], [malware_is_rejected]).
    The size ceiling is not enforced: [MAX_FILE_SIZE] is handed to
    [ParseMultipartForm] as its memory budget, so the form of a 60 MB PDF
    parses, and the file is posted to the ingest endpoint. *)
Theorem upload_over_ceiling_is_forwarded :
  MAX_FILE_SIZE = 52428800
  /\ Parts bigUpload = Some [FilePart "file" "big.pdf" 62914560]
  /\ MAX_FILE_SIZE < 62914560
  /\ goParseMultipartForm bigUpload MAX_FILE_SIZE
     = inr (mkForm {[ "file" := [mkFileHeader "big.pdf" 62914560] ]})
  /\ runUpload bigUpload (0%nat, [])
     = (mkReply 200 (BCopy "{}"),
        (1%nat, [mkRequest "POST" "http://localhost:8001/v1/ingest/file"])).
Proof.
  split; [reflexivity|]. split; [reflexivity|]. split; [reflexivity|].
  split; [|vm_compute; reflexivity].
  change (goParseMultipartForm bigUpload MAX_FILE_SIZE)
    with (@inr string Form
            (mkForm (addFile (FilePart "file" "big.pdf" 62914560) ∅))).
  reflexivity.
Qed.

(** ** Further properties of the mode translator *)

Lemma jfield_context_filter_chunks (c : ChunksRequest.t) :
  jlookup "context_filter" (ChunksRequest.marshal c)
  = ContextFilter.marshal <$> ChunksRequest.ContextFilter c.
Proof.
  unfold ChunksRequest.marshal, jstruct.
  destruct (ChunksRequest.ContextFilter c), (emptyInt (ChunksRequest.Limit c)),
    (emptyInt (ChunksRequest.PrevNextChunks c)); reflexivity.
Qed.

Lemma jfield_context_filter_completion (c : CompletionRequest.t) :
  jlookup "context_filter" (CompletionRequest.marshal c)
  = ContextFilter.marshal <$> CompletionRequest.ContextFilter c.
Proof.
  unfold CompletionRequest.marshal, jstruct.
  destruct (CompletionRequest.ContextFilter c), (emptyInt _), (emptyFloat _); reflexivity.
Qed.

(** The four branches of the switch, by mode string. *)
Lemma mode_cases (r : ReqData.t) :
  modeOf r = "search" \/ modeOf r = "basic" \/ modeOf r = "summarize"
  \/ (modeOf r <> "search" /\ modeOf r <> "basic" /\ modeOf r <> "summarize").
Proof.
  destruct (string_dec (modeOf r) "search"); [tauto|].
  destruct (string_dec (modeOf r) "basic"); [tauto|].
  destruct (string_dec (modeOf r) "summarize"); tauto.
Qed.

(** The filter of a payload is taken from the selected documents or is not
    there at all. *)
Lemma filter_choice_marshal (docs : list string) (b : bool) (v : JValue) :
  ContextFilter.marshal
    <$> (if b && negb (emptySlice docs) then Some (ContextFilter.mk docs) else None)
  = Some v ->
  docs <> [] /\ v = JObject [("docs_ids", JArray (map JString docs))].
Proof.
  destruct docs as [|d ds]; [by rewrite andb_false_r|].
  destruct b; cbn; [|discriminate]. intros [= <-]. split; [discriminate|reflexivity].
Qed.

(** X1. In every mode, a [context_filter] in the posted document lists
    exactly the selected documents, of which there is at least one; the
    bridge never posts an empty filter, and basic mode posts none. *)
Theorem context_filter_lists_selected_docs (r : ReqData.t) (v : JValue) :
  jlookup "context_filter" (chatBody r) = Some v ->
  docsOf r <> []
  /\ v = JObject [("docs_ids", JArray (map JString (docsOf r)))]
  /\ modeOf r <> "basic".
Proof.
  unfold chatBody.
  destruct (mode_cases r) as [Hm|[Hm|[Hm|(H1 & H2 & H3)]]].
  - rewrite (buildPayload_search r Hm). cbn [snd marshalPayload].
    rewrite jfield_context_filter_chunks. cbn [ChunksRequest.ContextFilter].
    intros Hv. rewrite Hm. split; [|split; [|discriminate]];
      apply (filter_choice_marshal (docsOf r) true v); cbn [andb];
      by destruct (emptySlice (docsOf r)).
  - rewrite (buildPayload_basic r Hm). cbn [snd marshalPayload].
    rewrite jfield_context_filter_chat. cbn. discriminate.
  - rewrite (buildPayload_summarize r Hm). cbn [snd marshalPayload].
    rewrite jfield_context_filter_completion. cbn [CompletionRequest.ContextFilter].
    intros Hv. rewrite Hm. split; [|split; [|discriminate]];
      apply (filter_choice_marshal (docsOf r) true v); cbn [andb];
      by destruct (emptySlice (docsOf r)).
  - rewrite (buildPayload_default r H1 H2 H3). cbn [snd marshalPayload].
    rewrite jfield_context_filter_chat. cbn [ChatRequest.ContextFilter].
    intros Hv. split; [|split; [|exact H2]];
      by apply (filter_choice_marshal (docsOf r)
                  (BridgeConfig.UseContext (ReqData.Config r)) v).
Qed.

Lemma context_filter_lists_selected_docs_witness :
  jlookup "context_filter" (chatBody ragSixTurns)
  = Some (JObject [("docs_ids", JArray [JString "doc-9"])])
  /\ docsOf ragSixTurns <> []
  /\ JObject [("docs_ids", JArray [JString "doc-9"])]
     = JObject [("docs_ids", JArray (map JString (docsOf ragSixTurns)))]
  /\ modeOf ragSixTurns <> "basic".
Proof.
  split; [reflexivity|].
  apply (context_filter_lists_selected_docs ragSixTurns). reflexivity.
Defined.

(** X2. In the two chat modes (basic, and rag with every other mode
    string) the payload is never empty: its last message is the new user
    message, whatever lies between the optional system turn and it is a
    suffix of the request's history, and there are at most two messages
    more than history turns, at most six in basic mode. *)
Theorem chat_messages_end_with_user_turn (r : ReqData.t) :
  modeOf r <> "search" -> modeOf r <> "summarize" ->
  exists (c : ChatRequest.t) (turns : list Message.t),
    snd (buildPayload r) = PChat c
    /\ ChatRequest.Messages c
       = systemTurn (ReqData.SystemPrompt r) ++ turns ++ [userTurn r]
    /\ last (ChatRequest.Messages c) = Some (Message.mk "user" (ReqData.Message r))
    /\ (exists older, ReqData.History r = older ++ turns)
    /\ (length (ChatRequest.Messages c) <= length (ReqData.History r) + 2)%nat
    /\ (modeOf r = "basic" -> (length (ChatRequest.Messages c) <= 6)%nat).
Proof.
  intros H1 H3.
  assert (Hsys : (length (systemTurn (ReqData.SystemPrompt r)) <= 1)%nat).
  { unfold systemTurn. destruct (String.eqb _ _); cbn; lia. }
  destruct (string_dec (modeOf r) "basic") as [Hm|H2].
  - eexists. exists (basicHistory (ReqData.History r)).
    rewrite (buildPayload_basic r Hm). cbn [snd ChatRequest.Messages].
    split; [reflexivity|]. split; [reflexivity|].
    split. { cbn [ChatRequest.Messages]. by rewrite app_assoc, last_snoc. }
    assert (Hb : (length (basicHistory (ReqData.History r)) <= 4)%nat
                 /\ (length (basicHistory (ReqData.History r))
                     <= length (ReqData.History r))%nat
                 /\ exists older, ReqData.History r
                                  = older ++ basicHistory (ReqData.History r)).
    { unfold basicHistory.
      destruct (Z.ltb_spec 4 (Z.of_nat (length (ReqData.History r)))) as [Hlt|Hle].
      - rewrite length_drop. split; [lia|]. split; [lia|].
        exists (take (length (ReqData.History r) - 4) (ReqData.History r)).
        by rewrite take_drop.
      - split; [lia|]. split; [lia|]. by exists []. }
    destruct Hb as (Hb4 & Hbl & Hsuf).
    split; [exact Hsuf|]. cbn [ChatRequest.Messages]. rewrite !length_app. cbn [length]. split; [lia|]. intros _. lia.
  - eexists. exists (ReqData.History r).
    rewrite (buildPayload_default r H1 H2 H3). cbn [snd ChatRequest.Messages].
    split; [reflexivity|]. split; [reflexivity|].
    split. { cbn [ChatRequest.Messages]. by rewrite app_assoc, last_snoc. }
    split; [by exists []|]. cbn [ChatRequest.Messages]. rewrite !length_app. cbn [length].
    split; [lia|]. intros Hm. contradiction.
Qed.

Lemma chat_messages_end_with_user_turn_witness :
  modeOf basicSixTurns <> "search" /\ modeOf basicSixTurns <> "summarize"
  /\ exists (c : ChatRequest.t) (turns : list Message.t),
       snd (buildPayload basicSixTurns) = PChat c
       /\ ChatRequest.Messages c
          = systemTurn (ReqData.SystemPrompt basicSixTurns) ++ turns
              ++ [userTurn basicSixTurns]
       /\ last (ChatRequest.Messages c)
          = Some (Message.mk "user" (ReqData.Message basicSixTurns))
       /\ (exists older, ReqData.History basicSixTurns = older ++ turns)
       /\ (length (ChatRequest.Messages c)
           <= length (ReqData.History basicSixTurns) + 2)%nat
       /\ (modeOf basicSixTurns = "basic" -> (length (ChatRequest.Messages c) <= 6)%nat).
Proof.
  split; [discriminate|]. split; [discriminate|].
  apply (chat_messages_end_with_user_turn basicSixTurns); discriminate.
Defined.

(** X3. Summarize mode reads the message, the selected documents,
    [max_tokens] and [temperature] only: two such requests that agree on
    them build the same completion request, whatever their history, system
    prompt and [use_context].  Its prompt is the fixed instruction followed
    by the message, [use_context] and [include_sources] are true, and the
    filter is there exactly when a document is selected. *)
Theorem summarize_payload (r1 r2 : ReqData.t) :
  modeOf r1 = "summarize" -> modeOf r2 = "summarize" ->
  ReqData.Message r1 = ReqData.Message r2 ->
  docsOf r1 = docsOf r2 ->
  BridgeConfig.MaxTokens (ReqData.Config r1) = BridgeConfig.MaxTokens (ReqData.Config r2) ->
  BridgeConfig.Temperature (ReqData.Config r1)
  = BridgeConfig.Temperature (ReqData.Config r2) ->
  buildPayload r1 = buildPayload r2
  /\ exists c : CompletionRequest.t,
       buildPayload r1 = ("/v1/completions", PCompletion c)
       /\ CompletionRequest.Prompt c
          = String.append
              "Please provide a comprehensive summary of the following content: "
              (ReqData.Message r1)
       /\ jlookup "prompt" (chatBody r1) = Some (JString (CompletionRequest.Prompt c))
       /\ jlookup "use_context" (chatBody r1) = Some (JBool true)
       /\ jlookup "include_sources" (chatBody r1) = Some (JBool true)
       /\ (jhas "context_filter" (chatBody r1) = true <-> docsOf r1 <> []).
Proof.
  intros H1 H2 Hmsg Hdocs Hmax Htemp.
  split.
  { rewrite (buildPayload_summarize r1 H1), (buildPayload_summarize r2 H2).
    by rewrite Hmsg, Hdocs, Hmax, Htemp. }
  eexists. split; [apply (buildPayload_summarize r1 H1)|].
  unfold chatBody, jhas. rewrite (buildPayload_summarize r1 H1).
  cbn [snd marshalPayload CompletionRequest.Prompt].
  rewrite jfield_context_filter_completion. cbn [CompletionRequest.ContextFilter].
  split; [reflexivity|].
  unfold CompletionRequest.marshal, jstruct.
  cbn [CompletionRequest.Model CompletionRequest.Prompt CompletionRequest.UseContext
       CompletionRequest.ContextFilter CompletionRequest.IncludeSources
       CompletionRequest.MaxTokens CompletionRequest.Temperature].
  destruct (docsOf r1) as [|d ds]; cbn [emptySlice];
    destruct (emptyInt _), (emptyFloat _); cbn;
    (repeat split; try reflexivity; try congruence; try discriminate).
Qed.

Lemma summarize_payload_witness :
  (ReqData.History summarizePlain <> ReqData.History summarizeWithHistory
   /\ BridgeConfig.UseContext (ReqData.Config summarizePlain)
      <> BridgeConfig.UseContext (ReqData.Config summarizeWithHistory))
  /\ buildPayload summarizePlain = buildPayload summarizeWithHistory.
Proof.
  split; [split; discriminate|].
  apply (summarize_payload summarizePlain summarizeWithHistory); reflexivity.
Defined.

(** X4. [max_tokens] is forwarded only when it is not zero, and never in
    search mode: the posted document has the key exactly when the mode is
    not "search" and the configured value is not zero, with that value. *)
Theorem max_tokens_forwarded_when_nonzero (r : ReqData.t) :
  jlookup "max_tokens" (chatBody r)
  = if String.eqb (modeOf r) "search"
       || Z.eqb (BridgeConfig.MaxTokens (ReqData.Config r)) 0
    then None
    else Some (JInt (BridgeConfig.MaxTokens (ReqData.Config r))).
Proof.
  unfold chatBody.
  destruct (mode_cases r) as [Hm|[Hm|[Hm|(H1 & H2 & H3)]]].
  - rewrite (buildPayload_search r Hm), Hm. cbn [snd marshalPayload String.eqb Ascii.eqb
      Bool.eqb orb]. cbv iota. cbn [orb].
    unfold ChunksRequest.marshal, jstruct. by destruct (emptySlice (docsOf r)).
  - rewrite (buildPayload_basic r Hm), Hm. cbn [snd marshalPayload].
    change (String.eqb "basic" "search") with false. cbn [orb].
    unfold ChatRequest.marshal, jstruct, emptyInt. cbn [ChatRequest.MaxTokens
      ChatRequest.Temperature ChatRequest.ContextFilter contextFilterField].
    destruct (Z.eqb _ 0), (emptyFloat _); reflexivity.
  - rewrite (buildPayload_summarize r Hm), Hm. cbn [snd marshalPayload].
    change (String.eqb "summarize" "search") with false. cbn [orb].
    unfold CompletionRequest.marshal, jstruct, emptyInt. cbn [CompletionRequest.MaxTokens
      CompletionRequest.Temperature CompletionRequest.ContextFilter].
    destruct (emptySlice (docsOf r)), (Z.eqb _ 0), (emptyFloat _); reflexivity.
  - rewrite (buildPayload_default r H1 H2 H3). cbn [snd marshalPayload].
    apply String.eqb_neq in H1. rewrite H1. cbn [orb].
    unfold ChatRequest.marshal, jstruct, emptyInt. cbn [ChatRequest.MaxTokens
      ChatRequest.Temperature ChatRequest.ContextFilter].
    destruct (_ && _), (Z.eqb _ 0), (emptyFloat _); reflexivity.
Qed.

(** ** chatHandler as a whole *)

Lemma endpoint_by_mode (r : ReqData.t) :
  fst (buildPayload r)
  = if String.eqb (modeOf r) "search" then "/v1/chunks"
    else if String.eqb (modeOf r) "summarize" then "/v1/completions"
    else "/v1/chat/completions".
Proof.
  destruct (mode_cases r) as [Hm|[Hm|[Hm|(H1 & H2 & H3)]]].
  - by rewrite (buildPayload_search r Hm), Hm.
  - by rewrite (buildPayload_basic r Hm), Hm.
  - by rewrite (buildPayload_summarize r Hm), Hm.
  - rewrite (buildPayload_default r H1 H2 H3).
    apply String.eqb_neq in H1, H3. by rewrite H1, H3.
Qed.

Section ChatHandler.

Variable World : Type.
Variable newRequest : string -> string -> string + Request.
Variable clientPost : Request -> JValue -> World -> (string + Response) * World.

Abbreviation chatW := (chatHandler World newRequest clientPost).

(** X5. [chatHandler] posts at most once.  When it posts nothing the world
    is untouched and the reply is 405, 400 or 500.  When it posts, the
    method was POST and the body decoded; the request goes to the upstream
    host at the endpoint of the mode (chunks for search, completions for
    summarize, chat completions for every other mode string) with the
    marshalled payload as body, and the reply is the upstream status and
    body, or 502 when the call fails. *)
Theorem chat_handler_posts_payload_once
    (method : string) (decoded : string + ReqData.t) (w w' : World)
    (reply : Reply) (posted : list (Request * JValue)) :
  chatW method decoded w = (reply, w', posted) ->
  (posted = [] /\ w' = w /\ (Code reply = 405 \/ Code reply = 400 \/ Code reply = 500))
  \/ exists (r : ReqData.t) (req : Request),
       method = "POST" /\ decoded = inr r
       /\ newRequest "POST"
            (String.append PRIVATEGPT_HOST
               (if String.eqb (modeOf r) "search" then "/v1/chunks"
                else if String.eqb (modeOf r) "summarize" then "/v1/completions"
                else "/v1/chat/completions"))
          = inr req
       /\ posted = [(req, chatBody r)]
       /\ w' = snd (clientPost req (chatBody r) w)
       /\ reply = match fst (clientPost req (chatBody r) w) with
                  | inl _ => mkReply 502 (BText "PrivateGPT API error")
                  | inr resp => mkReply (StatusCode resp) (BCopy (RespBody resp))
                  end.
Proof.
  unfold chatHandler.
  destruct (String.eqb method "POST") eqn:Em; cbn [negb];
    [|intros [= <- <- <-]; left; auto].
  apply String.eqb_eq in Em.
  destruct decoded as [e|r]; [intros [= <- <- <-]; left; auto|].
  pose proof (endpoint_by_mode r) as Hend.
  destruct (buildPayload r) as [endpoint payload] eqn:Ebp. cbn [fst snd] in *.
  unfold jsonMarshal.
  destruct (match payload with
            | PChunks _ => false
            | PChat c => unsupportedFloat (ChatRequest.Temperature c)
            | PCompletion c => unsupportedFloat (CompletionRequest.Temperature c)
            end); [intros [= <- <- <-]; left; auto|].
  destruct (newRequest "POST" (String.append PRIVATEGPT_HOST endpoint)) as [e|req] eqn:Ereq;
    [intros [= <- <- <-]; left; auto|].
  destruct (clientPost req (marshalPayload payload) w) as [[e|resp] w1] eqn:Epost;
    intros [= <- <- <-]; right; exists r, req; unfold chatBody;
    rewrite <- Hend, Ereq, Ebp; cbn [snd]; rewrite Epost;
    repeat split; try reflexivity; exact Em.
Qed.

End ChatHandler.

Lemma chat_handler_posts_payload_once_witness :
  chatHandler nat scriptNewRequest scriptPost "POST" (inr searchPlain) 0%nat
  = (mkReply 200 (BCopy "answer"), 1%nat,
     [(mkRequest "POST" "http://localhost:8001/v1/chunks", chatBody searchPlain)])
  /\ ((([(mkRequest "POST" "http://localhost:8001/v1/chunks", chatBody searchPlain)]
        : list (Request * JValue)) = []
       /\ 1%nat = 0%nat
       /\ (Code (mkReply 200 (BCopy "answer")) = 405
           \/ Code (mkReply 200 (BCopy "answer")) = 400
           \/ Code (mkReply 200 (BCopy "answer")) = 500))
      \/ exists (r : ReqData.t) (req : Request),
           "POST" = "POST" /\ (inr searchPlain : string + ReqData.t) = inr r
           /\ scriptNewRequest "POST"
                (String.append PRIVATEGPT_HOST
                   (if String.eqb (modeOf r) "search" then "/v1/chunks"
                    else if String.eqb (modeOf r) "summarize" then "/v1/completions"
                    else "/v1/chat/completions"))
              = inr req
           /\ [(mkRequest "POST" "http://localhost:8001/v1/chunks", chatBody searchPlain)]
              = [(req, chatBody r)]
           /\ 1%nat = snd (scriptPost req (chatBody r) 0%nat)
           /\ mkReply 200 (BCopy "answer")
              = match fst (scriptPost req (chatBody r) 0%nat) with
                | inl _ => mkReply 502 (BText "PrivateGPT API error")
                | inr resp => mkReply (StatusCode resp) (BCopy (RespBody resp))
                end).
Proof.
  split; [reflexivity|].
  apply (chat_handler_posts_payload_once nat scriptNewRequest scriptPost
           "POST" (inr searchPlain) 0%nat). reflexivity.
Defined.

(** ** Further properties of the file registry view *)

Lemma NoDup_fmap_eq {A B} (g : A -> B) (l : list A) (x y : A) :
  NoDup (g <$> l) -> x ∈ l -> y ∈ l -> g x = g y -> x = y.
Proof.
  induction l as [|a l IH]; intros Hnd Hx Hy Hg; [by apply elem_of_nil in Hx|].
  rewrite fmap_cons in Hnd. apply NoDup_cons in Hnd as [Ha Hnd].
  apply elem_of_cons in Hx as [->|Hx]; apply elem_of_cons in Hy as [->|Hy].
  - reflexivity.
  - exfalso. apply Ha. rewrite Hg. apply list_elem_of_fmap. by exists y.
  - exfalso. apply Ha. rewrite <- Hg. apply list_elem_of_fmap. by exists x.
  - by apply IH.
Qed.

Lemma dedupFiles_lookup_is_Some (data : list FileInfo.t) (k : string) :
  is_Some (dedupFiles data !! k) <-> exists f, f ∈ data /\ fileNameOf f = k.
Proof.
  pose proof (dedupFiles_slot_ok data k) as Hslot.
  destruct (dedupFiles data !! k) as [kept|]; cbn in Hslot.
  - destruct Hslot as (Hin & Hname & _). split; [|by eauto]. intros _. by exists kept.
  - split; [by intros [? ?]|]. intros (f & Hf & Hname). exfalso. by apply (Hslot f).
Qed.

Lemma dedupFiles_size (data : list FileInfo.t) :
  (size (dedupFiles data) <= length data)%nat.
Proof.
  induction data as [|file data IH] using rev_ind; [by cbn|].
  rewrite dedupFiles_snoc, length_app. cbn [length].
  assert (Hstep : (size (dedupStep (dedupFiles data) file) <= S (size (dedupFiles data)))%nat).
  { unfold dedupStep. destruct (dedupFiles data !! fileNameOf file) as [existing|] eqn:E.
    - destruct (stringGt _ _); [|lia].
      rewrite map_size_insert_Some by (by rewrite E). lia.
    - rewrite map_size_insert_None by exact E. lia. }
  lia.
Qed.

Lemma dedupFiles_dom (data : list FileInfo.t) :
  dom (dedupFiles data) = list_to_set (fileNameOf <$> data).
Proof.
  apply set_eq. intros k.
  rewrite elem_of_dom, dedupFiles_lookup_is_Some, elem_of_list_to_set, list_elem_of_fmap.
  split; intros (f & H1 & H2); exists f; by split.
Qed.

(** X6. The view has exactly one entry per display name that occurs in the
    upstream list, so it never has more entries than the list has records. *)
Theorem dedup_view_has_one_entry_per_name (data : list FileInfo.t) :
  dom (dedupFiles data) = list_to_set (fileNameOf <$> data)
  /\ (size (dedupFiles data) <= length data)%nat.
Proof. split; [apply dedupFiles_dom | apply dedupFiles_size]. Qed.

(** X7. When the [doc_id]s of the upstream list are pairwise different, the
    whole view, records included, is the same for every order of the list. *)
Theorem dedup_view_order_independent (data data' : list FileInfo.t) :
  NoDup (FileInfo.DocID <$> data) -> data ≡ₚ data' ->
  dedupFiles data = dedupFiles data'.
Proof.
  intros Hnd Hp. apply map_eq. intros k.
  pose proof (dedupFiles_slot_ok data k) as H1.
  pose proof (slot_ok_perm data' data k _ (symmetry Hp) (dedupFiles_slot_ok data' k)) as H2.
  pose proof (slot_ok_same_doc_id data k _ _ H1 H2) as Hid.
  destruct (dedupFiles data !! k) as [r1|], (dedupFiles data' !! k) as [r2|];
    cbn in *; try discriminate; [|reflexivity].
  f_equal. apply (NoDup_fmap_eq FileInfo.DocID data); [assumption|tauto|tauto|congruence].
Qed.

Lemma dedup_view_order_independent_witness :
  NoDup (FileInfo.DocID <$> [reportA; reportB; anonymous1; anonymous2])
  /\ [reportA; reportB; anonymous1; anonymous2] ≡ₚ [reportB; reportA; anonymous1; anonymous2]
  /\ dedupFiles [reportA; reportB; anonymous1; anonymous2]
     = dedupFiles [reportB; reportA; anonymous1; anonymous2].
Proof.
  assert (Hnd : NoDup (FileInfo.DocID <$> [reportA; reportB; anonymous1; anonymous2])).
  { apply (bool_decide_unpack _). vm_compute. exact I. }
  split; [exact Hnd|]. split; [apply perm_swap|].
  apply (dedup_view_order_independent _ _ Hnd). apply perm_swap.
Defined.

(** X8. Deduplication is idempotent: the records of the view, listed in any
    order, deduplicate to the same view. *)
Theorem dedup_view_is_a_fixed_point (data out : list FileInfo.t) :
  out ≡ₚ (map_to_list (dedupFiles data)).*2 ->
  dedupFiles out = dedupFiles data.
Proof.
  intros Hout.
  assert (Hmem : forall f, f ∈ out <-> dedupFiles data !! fileNameOf f = Some f).
  { intros f. rewrite Hout, list_elem_of_fmap. split.
    - intros ([k v] & -> & Hkv). cbn. apply elem_of_map_to_list in Hkv.
      pose proof (dedupFiles_slot_ok data k) as Hs. rewrite Hkv in Hs. cbn in Hs.
      destruct Hs as (_ & <- & _). exact Hkv.
    - intros Hf. exists (fileNameOf f, f). split; [reflexivity|].
      by apply elem_of_map_to_list. }
  apply map_eq. intros k.
  pose proof (dedupFiles_slot_ok out k) as Hs.
  destruct (dedupFiles out !! k) as [kept|]; cbn in Hs.
  - destruct Hs as (Hin & Hname & _). apply Hmem in Hin. by rewrite <- Hname.
  - destruct (dedupFiles data !! k) as [v|] eqn:Ev; [|reflexivity].
    exfalso. pose proof (dedupFiles_slot_ok data k) as Hv. rewrite Ev in Hv. cbn in Hv.
    destruct Hv as (_ & Hname & _). apply (Hs v); [|exact Hname].
    apply Hmem. by rewrite Hname.
Qed.

Lemma dedup_view_is_a_fixed_point_witness :
  [reportB] ≡ₚ (map_to_list (dedupFiles [reportA; reportB])).*2
  /\ dedupFiles [reportB] = dedupFiles [reportA; reportB].
Proof.
  assert (Hout : [reportB] ≡ₚ (map_to_list (dedupFiles [reportA; reportB])).*2).
  { replace (dedupFiles [reportA; reportB])
      with ({[ "report.pdf" := reportB ]} : gmap string FileInfo.t)
      by (apply map_eq; intros k; vm_compute; reflexivity).
    by rewrite map_to_list_singleton. }
  split; [exact Hout|]. by apply dedup_view_is_a_fixed_point.
Defined.

(** X9. When the display names of the upstream list are pairwise different
    nothing is dropped: every record is in the view under its name, and the
    view has as many entries as the list has records. *)
Theorem dedup_view_keeps_distinct_names (data : list FileInfo.t) :
  NoDup (fileNameOf <$> data) ->
  (forall f, f ∈ data -> dedupFiles data !! fileNameOf f = Some f)
  /\ size (dedupFiles data) = length data.
Proof.
  intros Hnd. split.
  - intros f Hf. pose proof (dedupFiles_slot_ok data (fileNameOf f)) as Hs.
    destruct (dedupFiles data !! fileNameOf f) as [kept|]; cbn in Hs.
    + destruct Hs as (Hin & Hname & _). f_equal.
      by apply (NoDup_fmap_eq fileNameOf data).
    + exfalso. by apply (Hs f).
  - rewrite <- size_dom, dedupFiles_dom.
    rewrite size_list_to_set by exact Hnd. apply length_fmap.
Qed.

Lemma dedup_view_keeps_distinct_names_witness :
  NoDup (fileNameOf <$> [reportA; anonymous1])
  /\ (forall f, f ∈ [reportA; anonymous1] ->
        dedupFiles [reportA; anonymous1] !! fileNameOf f = Some f)
  /\ size (dedupFiles [reportA; anonymous1]) = length [reportA; anonymous1].
Proof.
  assert (Hnd : NoDup (fileNameOf <$> [reportA; anonymous1])).
  { apply (bool_decide_unpack _). vm_compute. exact I. }
  split; [exact Hnd|]. by apply dedup_view_keeps_distinct_names.
Defined.

(** ** The file handlers as a whole *)



Lemma nameMatches_spec (filename : string) (file : FileInfo.t) :
  nameMatches filename file = true
  <-> exists md, FileInfo.DocMetadata file = Some md
                 /\ md !! "file_name" = Some (JString filename).
Proof.
  unfold nameMatches. destruct (FileInfo.DocMetadata file) as [md|].
  - destruct (md !! "file_name") as [[| | | |name| |]|] eqn:E;
      try (split; [discriminate|intros (md' & [= <-] & Hn); congruence]).
    rewrite String.eqb_eq. split.
    + intros ->. by exists md.
    + intros (md' & [= <-] & Hn). congruence.
  - split; [discriminate|]. by intros (md & ? & _).
Qed.

Lemma fileExists_spec (filename : string) (data : list FileInfo.t) :
  fileExists filename data = true
  <-> exists f md, f ∈ data /\ FileInfo.DocMetadata f = Some md
                   /\ md !! "file_name" = Some (JString filename).
Proof.
  unfold fileExists. rewrite existsb_exists. split.
  - intros (f & Hin & Hm). apply nameMatches_spec in Hm as (md & Hmd & Hn).
    exists f, md. by rewrite list_elem_of_In.
  - intros (f & md & Hin & Hmd & Hn). exists f. rewrite <- list_elem_of_In.
    split; [exact Hin|]. apply nameMatches_spec. by exists md.
Qed.

(** A record that carries the name asked for is filed under that name; the
    converse holds for every name but "Unknown". *)
Lemma nameMatches_fileNameOf (filename : string) (file : FileInfo.t) :
  (nameMatches filename file = true -> fileNameOf file = filename)
  /\ (filename <> "Unknown" -> fileNameOf file = filename ->
      nameMatches filename file = true).
Proof.
  unfold nameMatches, fileNameOf. destruct (FileInfo.DocMetadata file) as [md|].
  - destruct (md !! "file_name") as [[| | | |name| |]|];
      try (split; [discriminate|congruence]).
    rewrite String.eqb_eq. by split.
  - split; [discriminate|congruence].
Qed.

(** X10. For every name other than "Unknown", the processing probe finds a
    file exactly when the deduplicated listing has an entry under that
    name. *)
Theorem probe_agrees_with_view (filename : string) (data : list FileInfo.t) :
  filename <> "Unknown" ->
  fileExists filename data = true <-> is_Some (dedupFiles data !! filename).
Proof.
  intros Hne. rewrite dedupFiles_lookup_is_Some. unfold fileExists.
  rewrite existsb_exists. split.
  - intros (f & Hin & Hm). exists f. rewrite list_elem_of_In.
    split; [exact Hin|]. by apply nameMatches_fileNameOf.
  - intros (f & Hin & Hname). exists f. rewrite <- list_elem_of_In.
    split; [exact Hin|]. by apply nameMatches_fileNameOf.
Qed.

Lemma probe_agrees_with_view_witness :
  "report.pdf" <> "Unknown"
  /\ (fileExists "report.pdf" [reportA; anonymous1] = true
      <-> is_Some (dedupFiles [reportA; anonymous1] !! "report.pdf")).
Proof.
  split; [discriminate|]. apply probe_agrees_with_view. discriminate.
Defined.

(** Under "Unknown" the two differ: a record without a file name has an
    entry in the view and is not found by the probe. *)
Example probe_misses_unnamed_records :
  fileExists "Unknown" [anonymous1] = false
  /\ dedupFiles [anonymous1] !! "Unknown" = Some anonymous1.
Proof. split; vm_compute; reflexivity. Qed.

Section ListFiles.

Variable World : Type.
Variable httpGet : string -> World -> (string + Response) * World.
Variable decodeList : string -> string + ListFilesResponse.t.
Variable rangeOrder : gmap string FileInfo.t -> list FileInfo.t.

Abbreviation listW := (listFilesHandler World httpGet decodeList rangeOrder).

(** X11. When the upstream list arrives, [listFilesHandler] answers 200
    after that one call, with the upstream [object] and [model] and a list
    of files in which no display name occurs twice, every file is a record
    of the upstream list, and every upstream record is represented by a
    file of its name with a [doc_id] at least as great. *)
Theorem list_files_reply
    (w w1 : World) (resp : Response) (listResp : ListFilesResponse.t) :
  (forall m, rangeOrder m ≡ₚ (map_to_list m).*2) ->
  httpGet listURL w = (inr resp, w1) ->
  StatusCode resp = 200 ->
  decodeList (RespBody resp) = inr listResp ->
  exists files : list FileInfo.t,
    listW "GET" (w, [])
    = (mkListReply 200 (LFiles
         (ListFilesResponse.mk (ListFilesResponse.Object listResp)
            (ListFilesResponse.Model listResp) files)),
       (w1, [mkRequest "GET" listURL]))
    /\ NoDup (fileNameOf <$> files)
    /\ (forall f, f ∈ files -> f ∈ ListFilesResponse.Data listResp)
    /\ (forall g, g ∈ ListFilesResponse.Data listResp ->
          exists f, f ∈ files /\ fileNameOf f = fileNameOf g
                    /\ String.leb (FileInfo.DocID g) (FileInfo.DocID f) = true)
    /\ (length files <= length (ListFilesResponse.Data listResp))%nat.
Proof.
  intros Horder Hget Hst Hdec.
  set (data := ListFilesResponse.Data listResp).
  exists (rangeOrder (dedupFiles data)).
  assert (Hmem : forall f, f ∈ rangeOrder (dedupFiles data)
                           <-> dedupFiles data !! fileNameOf f = Some f).
  { intros f. rewrite Horder, list_elem_of_fmap. split.
    - intros ([k v] & -> & Hkv). cbn. apply elem_of_map_to_list in Hkv.
      pose proof (dedupFiles_slot_ok data k) as Hs. rewrite Hkv in Hs. cbn in Hs.
      destruct Hs as (_ & <- & _). exact Hkv.
    - intros Hf. exists (fileNameOf f, f). split; [reflexivity|].
      by apply elem_of_map_to_list. }
  split; [|split; [|split; [|split]]].
  - unfold listFilesHandler. cbn [String.eqb Ascii.eqb Bool.eqb negb]. cbv iota.
    unfold bind at 1. unfold Get. rewrite Hget. cbn [app].
    rewrite Hst, Z.eqb_refl. cbn [negb]. cbv iota. by rewrite Hdec.
  - rewrite Horder.
    replace (fileNameOf <$> (map_to_list (dedupFiles data)).*2)
      with ((map_to_list (dedupFiles data)).*1); [apply NoDup_fst_map_to_list|].
    rewrite <- list_fmap_compose. apply list_fmap_ext. intros i [k v] Hi. cbn.
    assert (Hkv : (k, v) ∈ map_to_list (dedupFiles data))
      by (apply list_elem_of_lookup; eauto).
    apply elem_of_map_to_list in Hkv.
    pose proof (dedupFiles_slot_ok data k) as Hs. rewrite Hkv in Hs. cbn in Hs.
    symmetry. tauto.
  - intros f Hf. apply Hmem in Hf.
    pose proof (dedupFiles_slot_ok data (fileNameOf f)) as Hs. rewrite Hf in Hs.
    cbn in Hs. tauto.
  - intros g Hg. pose proof (dedupFiles_slot_ok data (fileNameOf g)) as Hs.
    destruct (dedupFiles data !! fileNameOf g) as [kept|] eqn:Ek; cbn in Hs.
    + destruct Hs as (_ & Hname & Hmax). exists kept. split; [|split].
      * apply Hmem. by rewrite Hname.
      * exact Hname.
      * by apply Hmax.
    + exfalso. by apply (Hs g).
  - rewrite Horder, length_fmap, length_map_to_list. apply dedupFiles_size.
Qed.

End ListFiles.

Section Probe.

Variable World : Type.
Variable httpGet : string -> World -> (string + Response) * World.
Variable decodeList : string -> string + ListFilesResponse.t.

Abbreviation probeW := (processingStatusHandler World httpGet decodeList).

(** X12. When the upstream list arrives and a file name is asked for,
    [processingStatusHandler] answers 200 after that one call; [exists] is
    true exactly when some record of the list has this name as its
    [file_name], and [processing] is its negation. *)
Theorem processing_status_report
    (filename : string) (w w1 : World) (resp : Response)
    (listResp : ListFilesResponse.t) :
  filename <> "" ->
  httpGet listURL w = (inr resp, w1) ->
  StatusCode resp = 200 ->
  decodeList (RespBody resp) = inr listResp ->
  exists (found : bool) (m : gmap string JValue),
    probeW "GET" filename (w, [])
    = (mkReply 200 (BMap m), (w1, [mkRequest "GET" listURL]))
    /\ (found = true <->
        exists f md, f ∈ ListFilesResponse.Data listResp
                     /\ FileInfo.DocMetadata f = Some md
                     /\ md !! "file_name" = Some (JString filename))
    /\ m !! "filename" = Some (JString filename)
    /\ m !! "exists" = Some (JBool found)
    /\ m !! "processing" = Some (JBool (negb found)).
Proof.
  intros Hne Hget Hst Hdec.
  exists (fileExists filename (ListFilesResponse.Data listResp)).
  eexists. split; [|split; [apply fileExists_spec|]].
  - unfold processingStatusHandler. cbn [String.eqb Ascii.eqb Bool.eqb negb]. cbv iota.
    apply String.eqb_neq in Hne. rewrite Hne.
    unfold bind at 1. unfold Get. rewrite Hget. cbn [app].
    rewrite Hst, Z.eqb_refl. cbn [negb]. cbv iota. by rewrite Hdec.
  - unfold statusReport. repeat split; by simplify_map_eq.
Qed.

(** X19. [processingStatusHandler] reports a file as still processing only
    in a 200 reply, after the upstream list arrived with status 200, decoded,
    and held no record of that name; a failure of the upstream is never
    reported as processing. *)
Theorem probe_reports_processing_only_for_absent_file
    (method filename : string) (w : World) (m : gmap string JValue) :
  Body (fst (probeW method filename (w, []))) = BMap m ->
  m !! "processing" = Some (JBool true) ->
  Code (fst (probeW method filename (w, []))) = 200
  /\ exists (resp : Response) (w1 : World) (listResp : ListFilesResponse.t),
       httpGet listURL w = (inr resp, w1)
       /\ StatusCode resp = 200
       /\ decodeList (RespBody resp) = inr listResp
       /\ fileExists filename (ListFilesResponse.Data listResp) = false.
Proof.
  unfold processingStatusHandler.
  destruct (String.eqb method "GET"); cbn [negb]; [|discriminate].
  destruct (String.eqb filename ""); [by intros [= <-]|].
  unfold bind, Get. destruct (httpGet listURL w) as [[e|resp] w1] eqn:Hget.
  { intros [= <-]. unfold statusError. by simplify_map_eq. }
  destruct (Z.eqb_spec (StatusCode resp) 200) as [Hst|Hst]; cbn [negb].
  2:{ intros [= <-]. unfold statusError. by simplify_map_eq. }
  destruct (decodeList (RespBody resp)) as [e|listResp] eqn:Hdec.
  { intros [= <-]. unfold statusError. by simplify_map_eq. }
  intros [= <-] Hproc. split; [reflexivity|].
  exists resp, w1, listResp. repeat split; try assumption.
  unfold statusReport in Hproc.
  destruct (fileExists filename (ListFilesResponse.Data listResp)); [|reflexivity].
  by simplify_map_eq.
Qed.

End Probe.

Section DeleteOne.

Variable World : Type.
Variable newRequest : string -> string -> string + Request.
Variable clientDo : Request -> World -> (string + Response) * World.

Abbreviation deleteW := (deleteFileHandler World newRequest clientDo).


(** X14. [deleteFileHandler] sends nothing unless the method is DELETE and
    something is left of the path after [/api/files/]; then it sends at
    most one request, the delete of what is left of the path.  The bare
    path [/api/files/] is answered 400. *)
Theorem delete_file_sends_at_most_one
    (method urlPath : string) (s : World * list Request) :
  (snd (deleteW method urlPath s) = s
   \/ exists req,
        method = "DELETE"
        /\ TrimPrefix urlPath "/api/files/" <> ""
        /\ newRequest "DELETE" (deleteURL (TrimPrefix urlPath "/api/files/")) = inr req
        /\ snd (snd (deleteW method urlPath s)) = snd s ++ [req])
  /\ deleteW "DELETE" "/api/files/" s
     = (mkReply 400 (BText "Document ID required"), s).
Proof.
  split; [|reflexivity]. unfold deleteFileHandler.
  destruct (String.eqb method "DELETE") eqn:Em; cbn [negb]; [|by left].
  apply String.eqb_eq in Em. cbv zeta.
  destruct (String.eqb (TrimPrefix urlPath "/api/files/") "") eqn:Ep; [by left|].
  apply String.eqb_neq in Ep. fold (deleteURL (TrimPrefix urlPath "/api/files/")).
  destruct (newRequest "DELETE" _) as [e|req] eqn:Ereq; [by left|].
  right. exists req. repeat split; try assumption.
  unfold bind, Do. destruct s as [w sent].
  destruct (clientDo req w) as [[e|resp] w']; [reflexivity|].
  by destruct (StatusCode resp =? 200)%Z.
Qed.

End DeleteOne.

Lemma list_files_reply_witness :
  exists files : list FileInfo.t,
    listFilesHandler nat (scriptGet "five") scriptDecode scriptOrder "GET" (0%nat, [])
    = (mkListReply 200 (LFiles (ListFilesResponse.mk "list" "private-gpt" files)),
       (1%nat, [mkRequest "GET" listURL]))
    /\ NoDup (fileNameOf <$> files)
    /\ (forall f, f ∈ files -> f ∈ fiveFiles)
    /\ (forall g, g ∈ fiveFiles ->
          exists f, f ∈ files /\ fileNameOf f = fileNameOf g
                    /\ String.leb (FileInfo.DocID g) (FileInfo.DocID f) = true)
    /\ (length files <= length fiveFiles)%nat.
Proof.
  apply (list_files_reply nat (scriptGet "five") scriptDecode scriptOrder
           0%nat 1%nat (mkResponse 200 "five")
           (ListFilesResponse.mk "list" "private-gpt" fiveFiles));
    [intros m; reflexivity | reflexivity | reflexivity | reflexivity].
Defined.

Lemma processing_status_report_witness :
  exists (found : bool) (m : gmap string JValue),
    processingStatusHandler nat (scriptGet "five") scriptDecode "GET" "b.pdf" (0%nat, [])
    = (mkReply 200 (BMap m), (1%nat, [mkRequest "GET" listURL]))
    /\ (found = true <->
        exists f md, f ∈ fiveFiles /\ FileInfo.DocMetadata f = Some md
                     /\ md !! "file_name" = Some (JString "b.pdf"))
    /\ m !! "filename" = Some (JString "b.pdf")
    /\ m !! "exists" = Some (JBool found)
    /\ m !! "processing" = Some (JBool (negb found)).
Proof.
  apply (processing_status_report nat (scriptGet "five") scriptDecode "b.pdf"
           0%nat 1%nat (mkResponse 200 "five")
           (ListFilesResponse.mk "list" "private-gpt" fiveFiles));
    [discriminate | reflexivity | reflexivity | reflexivity].
Defined.

Example probe_finds_listed_file :
  fst (processingStatusHandler nat (scriptGet "five") scriptDecode "GET" "b.pdf"
         (0%nat, []))
  = mkReply 200 (BMap (statusReport "b.pdf" true))
  /\ fst (processingStatusHandler nat (scriptGet "five") scriptDecode "GET" "c.pdf"
            (0%nat, []))
     = mkReply 200 (BMap (statusReport "c.pdf" false)).
Proof. split; vm_compute; reflexivity. Qed.


(** ** What the delete handlers send *)

Section DeleteRequests.

Variable World : Type.
Variable httpGet : string -> World -> (string + Response) * World.
Variable decodeList : string -> string + ListFilesResponse.t.
Variable newRequest : string -> string -> string + Request.
Variable clientDo : Request -> World -> (string + Response) * World.

Abbreviation bulkW :=
  (deleteAllFilesHandler World httpGet decodeList newRequest clientDo).
Abbreviation loopS := (deleteLoop World newRequest clientDo).
Abbreviation attemptsS := (attempts World newRequest clientDo).
Abbreviation attemptS := (attempt World newRequest clientDo).





(** X16. When the list call fails, or is answered with a status other
    than 200, or its body does not decode, [deleteAllFilesHandler] sends no
    delete: it replies with [success] false and an [error], with status
    502, the upstream status, or 500. *)
Theorem delete_all_stops_when_listing_fails
    (w w1 : World) (r : string + Response) :
  httpGet listURL w = (r, w1) ->
  match r with
  | inl _ => True
  | inr resp => StatusCode resp <> 200 \/ exists e, decodeList (RespBody resp) = inl e
  end ->
  exists (code : Z) (m : gmap string JValue),
    bulkW "DELETE" (w, []) = (mkReply code (BMap m), (w1, [mkRequest "GET" listURL]))
    /\ m !! "success" = Some (JBool false)
    /\ is_Some (m !! "error")
    /\ m !! "deleted_count" = None
    /\ code = match r with
              | inl _ => 502
              | inr resp => if (StatusCode resp =? 200)%Z then 500 else StatusCode resp
              end.
Proof.
  intros Hget Hfail. unfold deleteAllFilesHandler.
  cbn [String.eqb Ascii.eqb Bool.eqb negb]. cbv iota.
  unfold bind at 1. unfold Get. fold listURL. rewrite Hget. cbn [app].
  destruct r as [e|resp].
  - do 2 eexists. split; [reflexivity|]. repeat split; by simplify_map_eq.
  - destruct (Z.eqb_spec (StatusCode resp) 200) as [Hst|Hst]; cbn [negb].
    + destruct Hfail as [Hne|[e He]]; [contradiction|]. rewrite He.
      do 2 eexists. split; [reflexivity|]. repeat split; by simplify_map_eq.
    + do 2 eexists. split; [reflexivity|]. repeat split; by simplify_map_eq.
Qed.

End DeleteRequests.

Lemma delete_all_stops_when_listing_fails_witness :
  exists (code : Z) (m : gmap string JValue),
    deleteAllFilesHandler nat scriptGetDown scriptDecode scriptNewRequest scriptDo
      "DELETE" (0%nat, [])
    = (mkReply code (BMap m), (0%nat, [mkRequest "GET" listURL]))
    /\ m !! "success" = Some (JBool false)
    /\ is_Some (m !! "error")
    /\ m !! "deleted_count" = None
    /\ code = 502.
Proof.
  apply (delete_all_stops_when_listing_fails nat scriptGetDown scriptDecode
           scriptNewRequest scriptDo 0%nat 0%nat (inl "connection refused"));
    [reflexivity | exact I].
Defined.

(** ** The extension check of the upload *)

Lemma extScan_no_dot (rpath suffix : list ascii) :
  (forall c, c ∈ rpath -> c <> "."%char) -> extScan rpath suffix = [].
Proof.
  revert suffix. induction rpath as [|c rest IH]; intros suffix Hno; [reflexivity|].
  cbn [extScan]. destruct (Ascii.eqb c "/"); [reflexivity|].
  destruct (Ascii.eqb_spec c "."%char) as [->|_].
  - exfalso. apply (Hno "."%char); [left|reflexivity].
  - apply IH. intros c' Hc'. apply Hno. by right.
Qed.

Lemma extScan_dot (pre post suffix : list ascii) :
  (forall c, c ∈ pre -> c <> "."%char /\ c <> "/"%char) ->
  extScan (pre ++ "."%char :: post) suffix = "."%char :: rev pre ++ suffix.
Proof.
  revert suffix. induction pre as [|c pre IH]; intros suffix Hclean; [reflexivity|].
  cbn [app extScan rev].
  destruct (Hclean c) as [Hdot Hslash]; [left|].
  apply Ascii.eqb_neq in Hdot, Hslash. rewrite Hdot, Hslash.
  rewrite IH by (intros c' Hc'; apply Hclean; by right).
  by rewrite <- app_assoc.
Qed.

Lemma list_ascii_of_string_append (a b : string) :
  list_ascii_of_string (String.append a b)
  = list_ascii_of_string a ++ list_ascii_of_string b.
Proof.
  induction a as [|c a IH]; [reflexivity|].
  change (String.append (String c a) b) with (String c (String.append a b)).
  cbn [list_ascii_of_string app]. by rewrite IH.
Qed.

(** The extension of [stem.e], when [e] has neither a dot nor a slash. *)
Lemma filepathExt_last_dot (stem e : string) :
  (forall c, c ∈ list_ascii_of_string e -> c <> "."%char /\ c <> "/"%char) ->
  filepathExt (String.append stem (String "." e)) = String "." e.
Proof.
  intros Hclean. unfold filepathExt.
  rewrite list_ascii_of_string_append. cbn [list_ascii_of_string].
  rewrite rev_app_distr. cbn [rev]. rewrite <- app_assoc. cbn [app].
  rewrite extScan_dot.
  - rewrite rev_involutive, app_nil_r. cbn [string_of_list_ascii].
    by rewrite string_of_list_ascii_of_string.
  - intros c Hc. apply Hclean. rewrite list_elem_of_In in Hc |- *.
    by apply in_rev.
Qed.

(** A name without any dot has no extension. *)
Lemma filepathExt_no_dot (name : string) :
  (forall c, c ∈ list_ascii_of_string name -> c <> "."%char) ->
  filepathExt name = "".
Proof.
  intros Hno. unfold filepathExt. rewrite extScan_no_dot; [reflexivity|].
  intros c Hc. apply Hno. rewrite list_elem_of_In in Hc |- *. by apply in_rev.
Qed.

Section UploadExtension.

Variable World : Type.
Variable newRequest : string -> string -> string + Request.
Variable clientDo : Request -> World -> (string + Response) * World.
Variable Incoming : Type.
Variable Method : Incoming -> string.
Variable ParseMultipartForm : Incoming -> Z -> string + Form.
Variable FileHandle : Type.
Variable openFile : FileHeader -> string + FileHandle.
Variable ToLower : string -> string.
Variable createFormFile : string -> string -> option string.
Variable ioCopy : FileHandle -> option string.

Abbreviation uploadX :=
  (uploadHandler World newRequest clientDo Incoming Method ParseMultipartForm
     FileHandle openFile ToLower createFormFile ioCopy).

(** X17. A file whose name has no dot is refused with 400 and nothing is
    sent upstream: its extension is empty, and the empty extension is not
    in the table. *)
Theorem upload_refuses_name_without_extension
    (r : Incoming) (form : Form) (file : FileHandle) (header : FileHeader)
    (s : World * list Request) :
  ToLower "" = "" ->
  Method r = "POST" ->
  ParseMultipartForm r MAX_FILE_SIZE = inr form ->
  FormFile FileHandle openFile form "file" = inr (file, header) ->
  (forall c, c ∈ list_ascii_of_string (Filename header) -> c <> "."%char) ->
  uploadX r s = (mkReply 400 (BText "File type not supported"), s).
Proof.
  intros Hlow Hm Hp Hf Hno.
  apply (upload_unsupported_extension World newRequest clientDo Incoming Method
           ParseMultipartForm FileHandle openFile ToLower createFormFile ioCopy
           r form file header s Hm Hp Hf).
  by rewrite (filepathExt_no_dot _ Hno), Hlow.
Qed.

(** X18. Only the last extension of the file name counts: for a name
    [stem.e], where [e] has neither a dot nor a slash, the upload is refused
    with 400 and nothing is sent when [.e], lower-cased, is not in the
    table, whatever extensions [stem] carries. *)
Theorem upload_checks_last_extension
    (r : Incoming) (form : Form) (file : FileHandle) (header : FileHeader)
    (stem e : string) (s : World * list Request) :
  Method r = "POST" ->
  ParseMultipartForm r MAX_FILE_SIZE = inr form ->
  FormFile FileHandle openFile form "file" = inr (file, header) ->
  Filename header = String.append stem (String "." e) ->
  (forall c, c ∈ list_ascii_of_string e -> c <> "."%char /\ c <> "/"%char) ->
  allowed (ToLower (String "." e)) = false ->
  uploadX r s = (mkReply 400 (BText "File type not supported"), s).
Proof.
  intros Hm Hp Hf Hname Hclean Hext.
  apply (upload_unsupported_extension World newRequest clientDo Incoming Method
           ParseMultipartForm FileHandle openFile ToLower createFormFile ioCopy
           r form file header s Hm Hp Hf).
  by rewrite Hname, (filepathExt_last_dot stem e Hclean).
Qed.

End UploadExtension.

Lemma upload_refuses_name_without_extension_witness :
  runUpload readmeUpload (0%nat, [])
  = (mkReply 400 (BText "File type not supported"), (0%nat, [])).
Proof.
  apply (upload_refuses_name_without_extension nat scriptNewRequest scriptDo
           MultipartRequest MethodOf goParseMultipartForm FileHeader
           (fun fh => inr fh) asciiToLower (fun _ _ => None) (fun _ => None)
           readmeUpload (mkForm {[ "file" := [mkFileHeader "README" 512] ]})
           (mkFileHeader "README" 512) (mkFileHeader "README" 512));
    [reflexivity | reflexivity | reflexivity | reflexivity |].
  intros c Hc. cbn in Hc.
  repeat (apply elem_of_cons in Hc as [->|Hc]; [discriminate|]).
  by apply elem_of_nil in Hc.
Defined.

Lemma upload_checks_last_extension_witness :
  runUpload doubleExtensionUpload (0%nat, [])
  = (mkReply 400 (BText "File type not supported"), (0%nat, [])).
Proof.
  apply (upload_checks_last_extension nat scriptNewRequest scriptDo
           MultipartRequest MethodOf goParseMultipartForm FileHeader
           (fun fh => inr fh) asciiToLower (fun _ _ => None) (fun _ => None)
           doubleExtensionUpload
           (mkForm {[ "file" := [mkFileHeader "invoice.pdf.exe" 512] ]})
           (mkFileHeader "invoice.pdf.exe" 512) (mkFileHeader "invoice.pdf.exe" 512)
           "invoice.pdf" "exe");
    [reflexivity | reflexivity | reflexivity | reflexivity | | reflexivity].
  intros c Hc. cbn in Hc.
  repeat (apply elem_of_cons in Hc as [->|Hc]; [split; discriminate|]).
  by apply elem_of_nil in Hc.
Defined.

Lemma probe_reports_processing_only_for_absent_file_witness :
  Body (fst (processingStatusHandler nat (scriptGet "five") scriptDecode "GET" "c.pdf"
               (0%nat, [])))
  = BMap (statusReport "c.pdf" false)
  /\ statusReport "c.pdf" false !! "processing" = Some (JBool true)
  /\ Code (fst (processingStatusHandler nat (scriptGet "five") scriptDecode "GET" "c.pdf"
                  (0%nat, []))) = 200.
Proof.
  assert (Hb : Body (fst (processingStatusHandler nat (scriptGet "five") scriptDecode
                            "GET" "c.pdf" (0%nat, [])))
               = BMap (statusReport "c.pdf" false)) by reflexivity.
  assert (Hp : statusReport "c.pdf" false !! "processing" = Some (JBool true))
    by (vm_compute; reflexivity).
  split; [exact Hb|]. split; [exact Hp|].
  apply (probe_reports_processing_only_for_absent_file nat (scriptGet "five")
           scriptDecode "GET" "c.pdf" 0%nat (statusReport "c.pdf" false) Hb Hp).
Defined.
